(** * Local AI agent: a shallow embedding of [local_ai_agent.py]

    The development follows the Python source method by method.  Python
    strings are Rocq strings whose characters are code points below 256;
    the agent object and the file system it touches form an explicit
    state; exceptions are results; and the capabilities the program only
    consumes (tokenizer, language model, HTTP client, speech recogniser,
    JSON serialiser) are fields of an environment record. *)

From Stdlib Require Import ZArith QArith Ascii.
From stdpp Require Import base option list gmap strings.

Local Open Scope nat_scope.

(** ** Python string operations *)

Module PyStr.

(** Code point of a character. *)
Definition ord (c : ascii) : N := Ascii.N_of_ascii c.

(** [c.isspace()] for code points below 256: the ASCII white space, the
    four separators 0x1c-0x1f, NEL (0x85) and the no-break space (0xa0). *)
Definition isspace (c : ascii) : bool :=
  let n := ord c in
  ((9 <=? n) && (n <=? 13) || (28 <=? n) && (n <=? 32)
   || (n =? 133) || (n =? 160))%N.

(** [c.lower()] for code points below 256: A-Z and the accented capitals
    0xc0-0xde (the multiplication sign 0xd7 apart) move up by 32. *)
Definition lower_char (c : ascii) : ascii :=
  let n := ord c in
  if ((65 <=? n) && (n <=? 90)
      || (192 <=? n) && (n <=? 222) && negb (n =? 215))%N
  then Ascii.ascii_of_N (n + 32) else c.

(** [s.lower()] *)
Fixpoint lower (s : string) : string :=
  match s with
  | "" => ""
  | String c s' => String (lower_char c) (lower s')
  end.

(** [s[n:]] for [n >= 0] *)
Fixpoint drop (n : nat) (s : string) : string :=
  match n, s with
  | 0, _ => s
  | S _, "" => ""
  | S n', String _ s' => drop n' s'
  end.

(** [s[:n]] for [n >= 0] *)
Fixpoint take (n : nat) (s : string) : string :=
  match n, s with
  | 0, _ => ""
  | S _, "" => ""
  | S n', String c s' => String c (take n' s')
  end.

(** [s[-n:]] for [n > 0]: the last [n] characters, all of [s] when it is
    shorter. *)
Definition last (n : nat) (s : string) : string :=
  drop (String.length s - n) s.

(** [s.startswith(prefix)] *)
Fixpoint startswith (prefix s : string) : bool :=
  match prefix, s with
  | "", _ => true
  | String _ _, "" => false
  | String a p, String b s' => bool_decide (a = b) && startswith p s'
  end.

(** The leftmost occurrence of [sep] in [s]: the text before it and the
    text after it. *)
Fixpoint partition (sep s : string) : option (string * string) :=
  if startswith sep s then Some ("", drop (String.length sep) s)
  else match s with
       | "" => None
       | String c s' =>
           match partition sep s' with
           | Some (before, after) => Some (String c before, after)
           | None => None
           end
       end.

(** [s.split(sep, 1)] for a non-empty [sep]: at most one cut, at the
    leftmost occurrence; without an occurrence the list holds [s] alone. *)
Definition split1 (sep s : string) : list string :=
  match partition sep s with
  | Some (before, after) => [before; after]
  | None => [s]
  end.

(** [s.lstrip()] *)
Fixpoint lstrip (s : string) : string :=
  match s with
  | "" => ""
  | String c s' => if isspace c then lstrip s' else s
  end.

(** [s.rstrip()] *)
Fixpoint rstrip (s : string) : string :=
  match s with
  | "" => ""
  | String c s' =>
      match rstrip s' with
      | "" => if isspace c then "" else String c ""
      | r => String c r
      end
  end.

(** [s.strip()]: white space goes at both ends. *)
Definition strip (s : string) : string := lstrip (rstrip s).

(** [sep.join(parts)] *)
Fixpoint join (sep : string) (parts : list string) : string :=
  match parts with
  | [] => ""
  | [p] => p
  | p :: rest => p +:+ sep +:+ join sep rest
  end.

(** The characters of a string, each as a one-character string: what
    iterating over a [str] yields. *)
Fixpoint chars (s : string) : list string :=
  match s with
  | "" => []
  | String c s' => String c "" :: chars s'
  end.

(** [bool(s)]: a string is truthy when it is not empty. *)
Definition truthy (s : string) : bool :=
  match s with "" => false | _ => true end.

(** Every character is white space. *)
Fixpoint all_space (s : string) : bool :=
  match s with
  | "" => true
  | String c s' => isspace c && all_space s'
  end.

(** The string starts with a white-space character. *)
Definition space_first (s : string) : bool :=
  match s with "" => false | String c _ => isspace c end.

(** The string ends with a white-space character. *)
Fixpoint space_last (s : string) : bool :=
  match s with
  | "" => false
  | String c "" => isspace c
  | String _ s' => space_last s'
  end.

End PyStr.

(** ** Values, exceptions and the outside world *)

(** A decoded JSON document, as [json.load] and [response.json()] hand it
    to the program.  A number is carried by the text Python's [str] gives
    it, since the program only ever interpolates numbers into messages.
    The fields of an object are the items of the decoded [dict], whose
    keys are distinct. *)
#[warnings="-register-all"]
Inductive json : Type :=
| JNull
| JBool (b : bool)
| JNum (text : string)
| JStr (s : string)
| JArr (items : list json)
| JObj (fields : list (string * json)).

(** The classes of exception that can leave a method. *)
Inductive exn : Type :=
| FileError      (* open or read failed: OSError family, UnicodeDecodeError *)
| DecodeError    (* json.JSONDecodeError *)
| DynamicError   (* TypeError, AttributeError, KeyError, IndexError or
                    ValueError: the value does not support the operation *)
| NetworkError   (* requests.RequestException *)
| SpeechError    (* any failure of the recogniser the program does not catch *)
| EOFError.      (* input() at the end of the input *)

Inductive result (A : Type) : Type :=
| Ok (a : A)
| Raise (e : exn).
Arguments Ok {A} a.
Arguments Raise {A} e.

(** What a path of the file system names.  A regular file is described by
    what the library calls of the program make of it. *)
Inductive file : Type :=
| Opaque             (* exists, but opening or reading it as text fails:
                        a directory, a file without permission *)
| Text (s : string)  (* read() returns s; the text is not a JSON document *)
| Json (v : json).   (* the text is the JSON document v *)

(** The keyword arguments of [model.generate]. *)
Record GenerateKwargs : Type := {
  max_length : Z;
  temperature : Q;
  top_k : Z;
  top_p : Q;
  do_sample : bool
}.

Record Response : Type := {
  status_code : Z;
  body : option json     (* response.json(); None when the body is not JSON *)
}.

(** One attempt of [recognizer.listen] followed by [recognize_google]. *)
Inductive Heard : Type :=
| Recognized (text : string)
| UnknownValue          (* sr.UnknownValueError *)
| WaitTimeout           (* sr.WaitTimeoutError *)
| NoMicrophone          (* sr.Microphone() fails *)
| RecognizerDown.       (* any other error of the recogniser *)

(** The capabilities the program consumes.  Sampling makes the language
    model answer differently from call to call, so an environment stands
    for the answers at one turn. *)
Record Env : Type := {
  tokenizer : string -> list Z;
  model_generate : list Z -> GenerateKwargs -> list Z;   (* outputs[0] *)
  decode : list Z -> string;
  requests_get : string -> result Response;
  listen : Heard;
  json_dumps : json -> string;
  py_repr : json -> string      (* str() of a decoded list or dict *)
}.

(** What the user perceives. *)
Inductive event : Type :=
| Prompt (s : string)  (* console: the prompt of input(), no line break *)
| Print (s : string)   (* console: print() *)
| Show (s : string)    (* web page: st.write, st.text_area, st.warning *)
| Say (s : string).    (* the text-to-speech engine *)

(** The agent object ([context_file], [context]) together with the file
    system and the output produced so far, oldest first. *)
Record World : Type := {
  context_file : string;
  context : json;
  fs : gmap string file;
  out : list event
}.

Definition set_context (c : json) (w : World) : World :=
  {| context_file := context_file w; context := c; fs := fs w; out := out w |}.

Definition set_context_file (p : string) (w : World) : World :=
  {| context_file := p; context := context w; fs := fs w; out := out w |}.

Definition set_fs (m : gmap string file) (w : World) : World :=
  {| context_file := context_file w; context := context w; fs := m; out := out w |}.

Definition set_out (o : list event) (w : World) : World :=
  {| context_file := context_file w; context := context w; fs := fs w; out := o |}.

(** A conversation context as the program builds it: a list of strings. *)
Definition ctx (turns : list string) : json := JArr (JStr <$> turns).

(** ** The monad of methods: environment, state and exceptions

    A raised exception keeps the state reached so far, as in Python. *)

Definition M (A : Type) : Type := Env -> World -> World * result A.

Definition ret {A} (a : A) : M A := fun _ w => (w, Ok a).

Definition raise {A} (e : exn) : M A := fun _ w => (w, Raise e).

Definition bind {A B} (m : M A) (k : A -> M B) : M B :=
  fun env w =>
    match m env w with
    | (w', Ok a) => k a env w'
    | (w', Raise e) => (w', Raise e)
    end.

Definition lift {A} (r : result A) : M A := fun _ w => (w, r).

Definition ask : M Env := fun env w => (w, Ok env).

Definition gets {A} (f : World -> A) : M A := fun _ w => (w, Ok (f w)).

Definition modify (f : World -> World) : M unit := fun _ w => (f w, Ok tt).

Notation "x <- m ; k" := (bind m (fun x => k))
  (at level 20, m at level 100, k at level 200, only parsing).
Notation "' p <- m ; k" := (bind m (fun p => k))
  (at level 20, p pattern, m at level 100, k at level 200, only parsing).

Definition emit (e : event) : M unit :=
  modify (fun w => set_out (out w ++ [e]) w).

(** ** Operations on dynamic values *)

Definition newline : string := String (Ascii.ascii_of_nat 10) "".

(** [l[-n:]] on a list, for [n > 0]. *)
Definition last_n {A} (n : nat) (l : list A) : list A :=
  drop (length l - n) l.

(** [v[-10:]] *)
Definition slice_last10 (v : json) : result json :=
  match v with
  | JArr items => Ok (JArr (last_n 10 items))
  | JStr s => Ok (JStr (PyStr.last 10 s))
  | _ => Raise DynamicError
  end.

(** The strings of a list whose items are all [str]. *)
Fixpoint str_items (items : list json) : option (list string) :=
  match items with
  | [] => Some []
  | JStr s :: rest =>
      match str_items rest with
      | Some l => Some (s :: l)
      | None => None
      end
  | _ :: _ => None
  end.

(** [sep.join(v)] *)
Definition py_join (sep : string) (v : json) : result string :=
  match v with
  | JArr items =>
      match str_items items with
      | Some l => Ok (PyStr.join sep l)
      | None => Raise DynamicError
      end
  | JStr s => Ok (PyStr.join sep (PyStr.chars s))
  | JObj fields => Ok (PyStr.join sep (fields.*1))
  | _ => Raise DynamicError
  end.

Fixpoint assoc (k : string) (fields : list (string * json)) : option json :=
  match fields with
  | [] => None
  | (k', v) :: rest => if bool_decide (k = k') then Some v else assoc k rest
  end.

(** [v[k]] for a string key. *)
Definition getitem_key (k : string) (v : json) : result json :=
  match v with
  | JObj fields =>
      match assoc k fields with
      | Some x => Ok x
      | None => Raise DynamicError
      end
  | _ => Raise DynamicError
  end.

(** [v[0]] *)
Definition getitem_0 (v : json) : result json :=
  match v with
  | JArr (x :: _) => Ok x
  | JStr (String c _) => Ok (JStr (String c ""))
  | _ => Raise DynamicError
  end.

(** What an f-string makes of a value. *)
Definition format (env : Env) (v : json) : string :=
  match v with
  | JNull => "None"
  | JBool true => "True"
  | JBool false => "False"
  | JNum text => text
  | JStr s => s
  | JArr _ | JObj _ => py_repr env v
  end.

(** [a, b = parts] *)
Definition unpack2 (parts : list string) : result (string * string) :=
  match parts with
  | [a; b] => Ok (a, b)
  | _ => Raise DynamicError
  end.

(** [parts[1]] *)
Definition index1 (parts : list string) : result string :=
  match parts with
  | _ :: b :: _ => Ok b
  | _ => Raise DynamicError
  end.

(** ** The file system *)

(** [os.path.exists(path)] *)
Definition os_path_exists (path : string) : M bool :=
  gets (fun w => bool_decide (is_Some (fs w !! path))).

(** [with open(path, 'r') as f: f.read()] *)
Definition read_text (path : string) : M string :=
  env <- ask ;
  entry <- gets (fun w => fs w !! path) ;
  match entry with
  | Some (Text s) => ret s
  | Some (Json v) => ret (json_dumps env v)
  | Some Opaque | None => raise FileError
  end.

(** [with open(path, 'r') as f: json.load(f)] *)
Definition json_load (path : string) : M json :=
  entry <- gets (fun w => fs w !! path) ;
  match entry with
  | Some (Json v) => ret v
  | Some (Text _) => raise DecodeError
  | Some Opaque | None => raise FileError
  end.

(** [open(path, 'w')]: the file is created or emptied on the spot. *)
Definition open_w (path : string) : M unit :=
  entry <- gets (fun w => fs w !! path) ;
  match entry with
  | Some Opaque => raise FileError
  | _ => modify (fun w => set_fs (<[path := Text ""]> (fs w)) w)
  end.

(** [json.dump(v, f)] into the file just opened for writing. *)
Definition json_dump (v : json) (path : string) : M unit :=
  modify (fun w => set_fs (<[path := Json v]> (fs w)) w).

(** ** The methods of [LocalAIAgent] *)

(** [load_context] *)
Definition load_context : M json :=
  path <- gets context_file ;
  present <- os_path_exists path ;
  if present then json_load path else ret (JArr []).

(** [__init__]; loading the model and the tokenizer is taken to succeed,
    and the handles it stores are the capabilities of the environment. *)
Definition init (path : string) : M unit :=
  _ <- emit (Print "Loading model and tokenizer...") ;
  _ <- emit (Print "Model loaded successfully!") ;
  _ <- modify (set_context_file path) ;
  loaded <- load_context ;
  modify (set_context loaded).

(** [save_context] *)
Definition save_context : M unit :=
  path <- gets context_file ;
  _ <- open_w path ;
  current <- gets context ;
  recent <- lift (slice_last10 current) ;
  json_dump recent path.

(** [self.context.append(item)] *)
Definition context_append (item : json) : M unit :=
  current <- gets context ;
  match current with
  | JArr items => modify (set_context (JArr (items ++ [item])))
  | _ => raise DynamicError
  end.

(** The keyword arguments [generate_response] passes to the model. *)
Definition generate_kwargs (limit : Z) : GenerateKwargs :=
  {| max_length := limit;
     temperature := 0.7;
     top_k := 50;
     top_p := 0.95;
     do_sample := true |}.

(** [generate_response]; [None] for [limit] is the call that leaves
    [max_length] to its default. *)
Definition generate_response (prompt : string) (limit : option Z) : M string :=
  _ <- context_append (JStr ("You: " +:+ prompt)) ;
  current <- gets context ;
  recent <- lift (slice_last10 current) ;
  full_context <- lift (py_join newline recent) ;
  env <- ask ;
  let inputs := tokenizer env full_context in
  let outputs := model_generate env inputs (generate_kwargs (default 200%Z limit)) in
  let response := decode env outputs in
  _ <- context_append (JStr ("AI: " +:+ response)) ;
  _ <- save_context ;
  ret response.

(** [text_to_speech] *)
Definition text_to_speech (text : string) : M unit := emit (Say text).

(** [speech_to_text] *)
Definition speech_to_text : M string :=
  env <- ask ;
  match listen env with
  | NoMicrophone => raise SpeechError
  | heard =>
      _ <- emit (Print "Listening...") ;
      match heard with
      | Recognized text => ret text
      | UnknownValue => ret "Sorry, I didn't catch that."
      | WaitTimeout => ret "No speech detected."
      | _ => raise SpeechError
      end
  end.

(** [summarize_file] *)
Definition summarize_file (file_path : string) : M string :=
  present <- os_path_exists file_path ;
  if negb present then ret ("File '" +:+ file_path +:+ "' not found.")
  else
    content <- read_text file_path ;
    ret ("Summary: " +:+ PyStr.take 200 content +:+ "...").

(** The two characters that close the weather message in the source, then
    the letter C. *)
Definition degrees : string :=
  String (Ascii.ascii_of_nat 194) (String (Ascii.ascii_of_nat 176) "C").

Definition weather_failure : string :=
  "Unable to fetch weather data. Please check the location.".

(** The address [get_weather] asks, the location put in as it is. *)
Definition weather_url (location : string) : string :=
  let api_key := "your_openweather_api_key" in
  "https://api.openweathermap.org/data/2.5/weather?q=" +:+ location
  +:+ "&appid=" +:+ api_key +:+ "&units=metric".

(** [get_weather] *)
Definition get_weather (location : string) : M string :=
  env <- ask ;
  response <- lift (requests_get env (weather_url location)) ;
  if bool_decide (status_code response = 200%Z) then
    data <- lift (match body response with
                  | Some v => Ok v
                  | None => Raise DecodeError
                  end) ;
    weather <- lift (getitem_key "weather" data) ;
    first <- lift (getitem_0 weather) ;
    description <- lift (getitem_key "description" first) ;
    main_part <- lift (getitem_key "main" data) ;
    temp <- lift (getitem_key "temp" main_part) ;
    ret ("Weather in " +:+ location +:+ ": " +:+ format env description
         +:+ ", " +:+ format env temp +:+ degrees)
  else ret weather_failure.

Definition not_recognized : string := "Task not recognized. Please try again.".

(** [perform_task] *)
Definition perform_task (task : string) : M string :=
  if PyStr.startswith "summarize " task then
    '(_, file_path) <- lift (unpack2 (PyStr.split1 "summarize " task)) ;
    summarize_file (PyStr.strip file_path)
  else if PyStr.startswith "draft email " task then
    content <- lift (index1 (PyStr.split1 "draft email " task)) ;
    ret ("Drafting an email based on your input: " +:+ content)
  else if PyStr.startswith "get weather " task then
    location <- lift (index1 (PyStr.split1 "get weather " task)) ;
    get_weather location
  else ret not_recognized.

(** ** The two front ends *)

(** One run of the page script of [web_interface]: the state of the two
    check boxes, the text of the input field, and whether the button was
    pressed.  The fixed layout of the page (title, side bar, labels) is
    left out of the output. *)
Definition web_interface (use_voice enable_tts : bool) (typed : string)
    (submit : bool) : M unit :=
  user_input <-
    (if use_voice then
       _ <- emit (Show "Listening for your voice input...") ;
       spoken <- speech_to_text ;
       _ <- emit (Show ("Recognized: " +:+ spoken)) ;
       ret spoken
     else ret typed) ;
  if submit then
    if PyStr.truthy user_input then
      if PyStr.startswith "task: " user_input then
        task_output <- perform_task (PyStr.drop 6 user_input) ;
        _ <- emit (Show task_output) ;
        if enable_tts then text_to_speech task_output else ret tt
      else
        response <- generate_response user_input None ;
        _ <- emit (Show response) ;
        if enable_tts then text_to_speech response else ret tt
    else emit (Show "Please enter a query or use voice input.")
  else ret tt.

(** The body of the console loop of [main] on one line of input; the
    result tells whether the loop goes on. *)
Definition console_turn (line : string) : M bool :=
  if bool_decide (PyStr.lower line = "exit") then
    _ <- emit (Print "Goodbye!") ;
    ret false
  else
    user_input <-
      (if bool_decide (PyStr.lower line = "voice") then
         spoken <- speech_to_text ;
         _ <- emit (Print ("You (via voice): " +:+ spoken)) ;
         ret spoken
       else ret line) ;
    _ <- (if PyStr.truthy user_input then
            if PyStr.startswith "task: " user_input then
              task_output <- perform_task (PyStr.drop 6 user_input) ;
              emit (Print task_output)
            else
              response <- generate_response user_input None ;
              _ <- emit (Print ("AI: " +:+ response)) ;
              text_to_speech response
          else ret tt) ;
    ret true.

(** The console loop over the lines the user types, each with the answers
    the capabilities give at that turn; [input()] shows its prompt, and
    fails when the lines run out before an exit. *)
Fixpoint console_loop (turns : list (Env * string)) (w : World)
    : World * result unit :=
  let asked := set_out (out w ++ [Prompt (newline +:+ "You: ")]) w in
  match turns with
  | [] => (asked, Raise EOFError)
  | (env, line) :: rest =>
      match console_turn line env asked with
      | (w', Ok true) => console_loop rest w'
      | (w', Ok false) => (w', Ok tt)
      | (w', Raise e) => (w', Raise e)
      end
  end.

(** A run of chat turns: [generate_response] on each prompt in order, each
    with the environment and the length limit of its call. *)
Fixpoint chat_turns (turns : list (Env * string * option Z)) (w : World)
    : World * result unit :=
  match turns with
  | [] => (w, Ok tt)
  | (env, prompt, limit) :: rest =>
      match generate_response prompt limit env w with
      | (w', Ok _) => chat_turns rest w'
      | (w', Raise e) => (w', Raise e)
      end
  end.

(** The replies and messages of the program, named for the statements. *)
Definition file_not_found (file_path : string) : string :=
  "File '" +:+ file_path +:+ "' not found.".

Definition summary_of (content : string) : string :=
  "Summary: " +:+ PyStr.take 200 content +:+ "...".

Definition email_draft (content : string) : string :=
  "Drafting an email based on your input: " +:+ content.

(** The text the model is asked to continue when the context holds
    [turns]: its last ten entries, one per line. *)
Definition render (turns : list string) : string :=
  PyStr.join newline (last_n 10 turns).

(** The decoded answer of the capabilities [env] to a prompt added to the
    context [turns]. *)
Definition reply (env : Env) (limit : option Z) (turns : list string)
    (prompt : string) : string :=
  decode env
    (model_generate env
       (tokenizer env (render (turns ++ ["You: " +:+ prompt])))
       (generate_kwargs (default 200%Z limit))).

(** The context after one exchange. *)
Definition exchange (env : Env) (limit : option Z) (turns : list string)
    (prompt : string) : list string :=
  turns ++ ["You: " +:+ prompt; "AI: " +:+ reply env limit turns prompt].

(** The context after a run of exchanges. *)
Fixpoint transcript (turns : list (Env * string * option Z))
    (start : list string) : list string :=
  match turns with
  | [] => start
  | (env, prompt, limit) :: rest =>
      transcript rest (exchange env limit start prompt)
  end.

(** The persisted file can be written: its path does not name something
    that cannot be opened. *)
Definition writable (w : World) : Prop :=
  fs w !! context_file w <> Some Opaque.

(** The persisted list, when the file holds one, has at most ten entries. *)
Definition persisted_bounded (w : World) : Prop :=
  forall items,
    fs w !! context_file w = Some (Json (JArr items)) -> length items <= 10.

(** A computation that leaves the conversation context, the agent's path
    and the whole file system as they were, whatever its outcome. *)
Definition frame {A} (m : M A) : Prop :=
  forall env w,
    context (m env w).1 = context w
    /\ context_file (m env w).1 = context_file w
    /\ fs (m env w).1 = fs w.

(** A computation that preserves the bound on the persisted list. *)
Definition keeps_bound {A} (m : M A) : Prop :=
  forall env w, persisted_bounded w -> persisted_bounded (m env w).1.

(** An HTTP status outside 200-299. *)
Definition non_success (status : Z) : Prop :=
  ~ (200 <= status <= 299)%Z.

(** Capabilities for the examples: a model that always answers "ok", a
    weather service that answers 404, a silent microphone. *)
Definition canned_env : Env :=
  {| tokenizer := fun _ => [];
     model_generate := fun ids _ => ids;
     decode := fun _ => "ok";
     requests_get := fun _ => Ok {| status_code := 404; body := None |};
     listen := WaitTimeout;
     json_dumps := fun _ => "";
     py_repr := fun _ => "" |}.

(** A fresh agent over the file system [files]. *)
Definition fresh (files : gmap string file) : World :=
  {| context_file := "context.json"; context := JArr []; fs := files; out := [] |}.

(** [main]: the agent is built on the default path, the mode is asked,
    and the answer, stripped and in lower case, selects the console loop,
    one run of the web page (with the state of its widgets), or the
    complaint.  [boot] answers while the agent is built and the mode is
    chosen. *)
Definition main (boot : Env) (mode_answer : string)
    (turns : list (Env * string))
    (page : Env) (use_voice enable_tts : bool) (typed : string) (submit : bool)
    (w : World) : World * result unit :=
  match (_ <- init "context.json" ;
         emit (Prompt "Choose mode: [console/web] ")) boot w with
  | (w0, Raise e) => (w0, Raise e)
  | (w0, Ok _) =>
      let mode := PyStr.lower (PyStr.strip mode_answer) in
      if bool_decide (mode = "console") then
        match (_ <- emit (Print "Welcome to your local AI agent!") ;
               emit (Print "Type 'exit' to quit. Use 'voice' for voice input."))
                boot w0 with
        | (w1, _) => console_loop turns w1
        end
      else if bool_decide (mode = "web") then
        web_interface use_voice enable_tts typed submit page w0
      else
        emit (Print "Invalid mode. Please restart and choose 'console' or 'web'.")
             boot w0
  end.

(** A computation every run of which relates the state before to the
    state after by [R], whatever its outcome. *)
Definition steps (R : World -> World -> Prop) {A} (m : M A) : Prop :=
  forall env w, R w (m env w).1.

(** Nothing at all has changed. *)
Definition untouched (w w' : World) : Prop := w' = w.

(** The output has only been added to, with events that are [allowed]. *)
Definition out_grows (allowed : event -> Prop) (w w' : World) : Prop :=
  exists more, out w' = out w ++ more /\ Forall allowed more.

Definition any_event (e : event) : Prop := True.

Definition not_speech (e : event) : Prop :=
  match e with Say _ => False | _ => True end.

(** The agent keeps its path, and every other file is as it was. *)
Definition other_files_kept (w w' : World) : Prop :=
  context_file w' = context_file w
  /\ forall path, path <> context_file w -> fs w' !! path = fs w !! path.

(** A context that is a list has only been added to at its end; one that
    is not a list is as it was. *)
Definition context_grows (w w' : World) : Prop :=
  match context w with
  | JArr items => exists more, context w' = JArr (items ++ more)
  | other => context w' = other
  end.

(** The file holds the last ten entries of the list in memory. *)
Definition synced (w : World) : Prop :=
  exists items,
    context w = JArr items
    /\ fs w !! context_file w = Some (Json (JArr (last_n 10 items))).

(** A computation that, when it returns, leaves the file in step with the
    memory if it found them so. *)
Definition keeps_synced {A} (m : M A) : Prop :=
  forall env w w' a, synced w -> m env w = (w', Ok a) -> synced w'.

(** A weather service that answers 200 with the given body. *)
Definition weather_env (answer : option json) : Env :=
  {| tokenizer := fun _ => [];
     model_generate := fun ids _ => ids;
     decode := fun _ => "ok";
     requests_get := fun _ => Ok {| status_code := 200; body := answer |};
     listen := UnknownValue;
     json_dumps := fun _ => "";
     py_repr := fun _ => "" |}.

(** The body the weather service is expected to send. *)
Definition weather_body (description temp : json) : json :=
  JObj [("weather", JArr [JObj [("description", description)]]);
        ("main", JObj [("temp", temp)])].

(** ** Strings *)

Section Strings.
Import PyStr.

Lemma startswith_app (p s : string) : startswith p (p +:+ s) = true.
Proof.
  induction p as [|a p IH]; simpl; [done|].
  unfold String.app; simpl. rewrite bool_decide_eq_true_2 by done. exact IH.
Qed.

Lemma drop_app (p s : string) : drop (String.length p) (p +:+ s) = s.
Proof. induction p as [|a p IH]; simpl; [by destruct s|exact IH]. Qed.

(** The test is anchored at position 0: it holds exactly of the strings
    that begin with the prefix. *)
Lemma startswith_iff (p s : string) :
  startswith p s = true <-> exists suffix, s = p +:+ suffix.
Proof.
  split.
  - revert s. induction p as [|a p IH]; intros s H.
    + by exists s.
    + destruct s as [|b s]; simpl in H; [done|].
      apply andb_prop in H as [Hab Hp].
      apply bool_decide_eq_true_1 in Hab as ->.
      destruct (IH _ Hp) as [suffix ->]. by exists suffix.
  - intros [suffix ->]. apply startswith_app.
Qed.

Lemma partition_unfold (sep s : string) :
  partition sep s =
    if startswith sep s then Some ("", drop (String.length sep) s)
    else match s with
         | "" => None
         | String c s' =>
             match partition sep s' with
             | Some (before, after) => Some (String c before, after)
             | None => None
             end
         end.
Proof. by destruct s. Qed.

(** Splitting at a separator the string starts with cuts at position 0. *)
Lemma split1_prefix (p suffix : string) :
  split1 p (p +:+ suffix) = [""; suffix].
Proof.
  unfold split1. rewrite partition_unfold, startswith_app, drop_app. done.
Qed.

Lemma lstrip_decompose (s : string) :
  exists lead, s = lead +:+ lstrip s /\ all_space lead = true.
Proof.
  induction s as [|c s [lead [Hs Hlead]]]; [by exists ""|].
  simpl. destruct (isspace c) eqn:Hc.
  - exists (String c lead). split.
    + unfold String.app; simpl. f_equal. exact Hs.
    + simpl. by rewrite Hc.
  - by exists "".
Qed.

Lemma lstrip_no_space_first (s : string) : space_first (lstrip s) = false.
Proof.
  induction s as [|c s IH]; [done|].
  simpl. destruct (isspace c) eqn:Hc; [exact IH|]. simpl. exact Hc.
Qed.

Lemma lstrip_keeps_last (s : string) :
  space_last s = false -> space_last (lstrip s) = false.
Proof.
  induction s as [|c s IH]; [done|].
  intros H. simpl. destruct (isspace c) eqn:Hc; [|exact H].
  apply IH. destruct s as [|d s]; simpl in H; [congruence|exact H].
Qed.

Lemma rstrip_decompose (s : string) :
  exists trail, s = rstrip s +:+ trail /\ all_space trail = true.
Proof.
  induction s as [|c s [trail [Hs Htrail]]]; [by exists ""|].
  simpl. destruct (rstrip s) as [|d r] eqn:Hr.
  - destruct (isspace c) eqn:Hc.
    + exists (String c trail). split.
      * unfold String.app in *; simpl in *. by f_equal.
      * simpl. by rewrite Hc.
    + exists trail. split; [|done].
      unfold String.app in *; simpl in *. by f_equal.
  - exists trail. split; [|done].
    unfold String.app in *; simpl in *. by f_equal.
Qed.

Lemma rstrip_no_space_last (s : string) : space_last (rstrip s) = false.
Proof.
  induction s as [|c s IH]; [done|].
  simpl. destruct (rstrip s) as [|d r].
  - destruct (isspace c) eqn:Hc; [done|]. simpl. exact Hc.
  - exact IH.
Qed.

(** What [strip] removes is white space, at the front and at the back,
    and it leaves none at either end. *)
Lemma strip_spec (s : string) :
  (exists lead trail,
      s = lead +:+ strip s +:+ trail
      /\ all_space lead = true /\ all_space trail = true)
  /\ space_first (strip s) = false
  /\ space_last (strip s) = false.
Proof.
  unfold strip. split; [|split].
  - destruct (rstrip_decompose s) as [trail [Hs Htrail]].
    destruct (lstrip_decompose (rstrip s)) as [lead [Hr Hlead]].
    exists lead, trail. split; [|done].
    rewrite Hs at 1. rewrite Hr at 1.
    clear. induction lead as [|c lead IH]; [done|].
    unfold String.app in *; simpl. by f_equal.
  - apply lstrip_no_space_first.
  - apply lstrip_keeps_last, rstrip_no_space_last.
Qed.

Lemma take_short (n : nat) (s : string) :
  String.length s <= n -> take n s = s.
Proof.
  revert n. induction s as [|c s IH]; intros [|n] H; simpl in *;
    try done; try lia.
  f_equal. apply IH. lia.
Qed.

Lemma length_take (n : nat) (s : string) :
  String.length (take n s) = Nat.min n (String.length s).
Proof.
  revert n. induction s as [|c s IH]; intros [|n]; simpl; try done.
  by rewrite IH.
Qed.

End Strings.

(** ** The task router *)

Section Router.
Import PyStr.

Lemma perform_task_summarize (suffix : string) :
  perform_task ("summarize " +:+ suffix) = summarize_file (strip suffix).
Proof.
  unfold perform_task.
  rewrite (startswith_app "summarize "), (split1_prefix "summarize ").
  reflexivity.
Qed.

Lemma perform_task_draft_email (suffix : string) :
  perform_task ("draft email " +:+ suffix) = ret (email_draft suffix).
Proof.
  unfold perform_task.
  rewrite (startswith_app "draft email "), (split1_prefix "draft email ").
  reflexivity.
Qed.

Lemma perform_task_get_weather (suffix : string) :
  perform_task ("get weather " +:+ suffix) = get_weather suffix.
Proof.
  unfold perform_task.
  rewrite (startswith_app "get weather "), (split1_prefix "get weather ").
  reflexivity.
Qed.

Lemma perform_task_unrecognized (task : string) :
  startswith "summarize " task = false ->
  startswith "draft email " task = false ->
  startswith "get weather " task = false ->
  perform_task task = ret not_recognized.
Proof. intros H1 H2 H3. unfold perform_task. by rewrite H1, H2, H3. Qed.

End Router.

(** C1. The router tests the prefixes "summarize ", "draft email " and
    "get weather " in that order, each anchored at position 0 (the test
    holds exactly of the inputs that begin with the prefix); the first
    that matches selects the executor, and an input matching none gets the
    canned message.  So "summarize notes.txt" goes to the summarize
    executor with the argument "notes.txt", and "please summarize
    notes.txt" is not recognized. *)
Theorem perform_task_routing (task suffix : string) :
  (forall p s, PyStr.startswith p s = true <-> exists rest, s = p +:+ rest)
  /\ perform_task ("summarize " +:+ suffix) = summarize_file (PyStr.strip suffix)
  /\ perform_task ("draft email " +:+ suffix) = ret (email_draft suffix)
  /\ perform_task ("get weather " +:+ suffix) = get_weather suffix
  /\ (PyStr.startswith "summarize " task = false ->
      PyStr.startswith "draft email " task = false ->
      PyStr.startswith "get weather " task = false ->
      perform_task task = ret not_recognized)
  /\ perform_task "summarize notes.txt" = summarize_file "notes.txt"
  /\ perform_task "please summarize notes.txt" = ret not_recognized.
Proof.
  split; [exact startswith_iff|].
  split; [apply perform_task_summarize|].
  split; [apply perform_task_draft_email|].
  split; [apply perform_task_get_weather|].
  split; [apply perform_task_unrecognized|].
  split.
  - exact (perform_task_summarize "notes.txt").
  - by apply perform_task_unrecognized.
Qed.

Lemma perform_task_routing_witness :
  perform_task "what time is it" = ret not_recognized.
Proof.
  destruct (perform_task_routing "what time is it" "") as (_ & _ & _ & _ & H & _).
  apply H; reflexivity.
Defined.

(** C9, as the code has it.  The claim that every kind trims leading white
    space only fails both ways: the draft keeps the leading space of its
    suffix, and the path of a summary loses its trailing space. *)
Lemma task_argument_counterexample :
  perform_task "draft email  hi" canned_env (fresh ∅)
    <> ret (email_draft (PyStr.lstrip " hi")) canned_env (fresh ∅)
  /\ perform_task "summarize notes.txt " canned_env (fresh ∅)
    <> summarize_file (PyStr.lstrip "notes.txt ") canned_env (fresh ∅).
Proof. split; vm_compute; discriminate. Qed.

(** C9, amended.  The argument of summarize is the suffix with the white
    space stripped at both ends; the arguments of draft_email and
    get_weather are the suffix as it is, nothing trimmed. *)
Theorem task_argument_shape (suffix : string) :
  perform_task ("summarize " +:+ suffix) = summarize_file (PyStr.strip suffix)
  /\ (exists lead trail,
        suffix = lead +:+ PyStr.strip suffix +:+ trail
        /\ PyStr.all_space lead = true /\ PyStr.all_space trail = true)
  /\ PyStr.space_first (PyStr.strip suffix) = false
  /\ PyStr.space_last (PyStr.strip suffix) = false
  /\ perform_task ("draft email " +:+ suffix) = ret (email_draft suffix)
  /\ perform_task ("get weather " +:+ suffix) = get_weather suffix.
Proof.
  destruct (strip_spec suffix) as (Hparts & Hfirst & Hlast).
  split; [apply perform_task_summarize|].
  split; [exact Hparts|].
  split; [exact Hfirst|].
  split; [exact Hlast|].
  split; [apply perform_task_draft_email|apply perform_task_get_weather].
Qed.

(** ** Running monadic code *)

Lemma run_bind {A B} (m : M A) (k : A -> M B) env w w' a :
  m env w = (w', Ok a) -> bind m k env w = k a env w'.
Proof. intros H. unfold bind. by rewrite H. Qed.

Lemma run_bind_raise {A B} (m : M A) (k : A -> M B) env w w' e :
  m env w = (w', Raise e) -> bind m k env w = (w', Raise e).
Proof. intros H. unfold bind. by rewrite H. Qed.

(** Run the first statement of a block whose outcome [tac] establishes. *)
Ltac run_with tac := erewrite run_bind; [|tac; fail].
Ltac run := run_with ltac:(reflexivity).

(** ** The context store *)

Lemma context_append_list (item : json) env (w : World) (items : list json) :
  context w = JArr items ->
  context_append item env w = (set_context (JArr (items ++ [item])) w, Ok tt).
Proof. intros H. unfold context_append. run. by rewrite H. Qed.

Lemma length_last_n {A} (n : nat) (l : list A) :
  length (last_n n l) = Nat.min (length l) n.
Proof. unfold last_n. rewrite length_drop. lia. Qed.

Lemma last_n_suffix {A} (n : nat) (l : list A) : last_n n l `suffix_of` l.
Proof. apply suffix_drop. Qed.

Lemma last_n_fmap {A B} (f : A -> B) (n : nat) (l : list A) :
  last_n n (f <$> l) = f <$> last_n n l.
Proof. unfold last_n. by rewrite length_fmap, fmap_drop. Qed.

Lemma str_items_fmap (l : list string) : str_items (JStr <$> l) = Some l.
Proof.
  induction l as [|s l IH]; [done|].
  rewrite fmap_cons. cbn [str_items]. by rewrite IH.
Qed.

Lemma slice_last10_ctx (l : list string) :
  slice_last10 (ctx l) = Ok (ctx (last_n 10 l)).
Proof. unfold ctx, slice_last10. by rewrite last_n_fmap. Qed.

Lemma py_join_ctx (sep : string) (l : list string) :
  py_join sep (ctx l) = Ok (PyStr.join sep l).
Proof. unfold ctx, py_join. by rewrite str_items_fmap. Qed.

Lemma ctx_app (l : list string) (s : string) :
  JArr ((JStr <$> l) ++ [JStr s]) = ctx (l ++ [s]).
Proof. unfold ctx. by rewrite fmap_app. Qed.

(** [save_context] on a context that is a list, over a file that can be
    written: the file becomes the last ten items, whatever it held. *)
Lemma save_context_list (env : Env) (w : World) (items : list json) :
  context w = JArr items ->
  writable w ->
  save_context env w
  = (set_fs (<[context_file w := Json (JArr (last_n 10 items))]> (fs w)) w, Ok tt).
Proof.
  intros Hctx Hw. unfold writable in Hw.
  unfold save_context, bind, gets, open_w, bind, gets, modify, lift, json_dump,
    modify, raise.
  destruct (fs w !! context_file w) as [[]|] eqn:Hfile; try done;
    simpl; rewrite Hctx; simpl; unfold set_fs; simpl;
    by rewrite insert_insert_eq.
Qed.

(** One call of [generate_response] on a context of strings. *)
Lemma generate_response_ok (env : Env) (prompt : string) (limit : option Z)
    (w : World) (l : list string) :
  context w = ctx l ->
  writable w ->
  generate_response prompt limit env w
  = (set_fs (<[context_file w :=
                 Json (ctx (last_n 10 (exchange env limit l prompt)))]> (fs w))
       (set_context (ctx (exchange env limit l prompt)) w),
     Ok (reply env limit l prompt)).
Proof.
  intros Hctx Hw. unfold generate_response.
  run_with ltac:(apply context_append_list; exact Hctx).
  rewrite ctx_app. run.
  run_with ltac:(unfold lift; cbn [context set_context];
                 by rewrite slice_last10_ctx).
  run_with ltac:(unfold lift; by rewrite py_join_ctx).
  run.
  run_with ltac:(by apply context_append_list).
  rewrite ctx_app, <- (assoc_L (++)).
  run_with ltac:(by apply save_context_list).
  unfold ret, set_fs, set_context, exchange, reply, render, ctx.
  cbn [context_file context fs out]. by rewrite last_n_fmap.
Qed.

Lemma length_exchange env limit (l : list string) prompt :
  length (exchange env limit l prompt) = length l + 2.
Proof. unfold exchange. rewrite length_app. done. Qed.

Lemma length_transcript turns (l : list string) :
  length (transcript turns l) = length l + 2 * length turns.
Proof.
  revert l. induction turns as [|[[env prompt] limit] rest IH]; intros l; simpl.
  - lia.
  - rewrite IH, length_exchange. lia.
Qed.

Lemma transcript_prefix turns (l : list string) :
  l `prefix_of` transcript turns l.
Proof.
  revert l. induction turns as [|[[env prompt] limit] rest IH]; intros l; simpl.
  - done.
  - etrans; [|apply IH]. unfold exchange. by apply prefix_app_r.
Qed.

(** A run of at least one chat turn on a context of strings: the context
    grows into the transcript, and the file holds its last ten entries. *)
Lemma chat_turns_ok turns (w : World) (l : list string) :
  context w = ctx l ->
  writable w ->
  turns <> [] ->
  chat_turns turns w
  = (set_fs (<[context_file w := Json (ctx (last_n 10 (transcript turns l)))]>
               (fs w))
       (set_context (ctx (transcript turns l)) w),
     Ok tt).
Proof.
  revert w l.
  induction turns as [|[[env prompt] limit] rest IH]; intros w l Hctx Hw Hne;
    [done|].
  cbn [chat_turns transcript].
  rewrite (generate_response_ok env prompt limit w l Hctx Hw).
  destruct rest as [|next rest]; [done|].
  rewrite (IH _ (exchange env limit l prompt)); [| done | | done].
  - unfold set_fs, set_context. cbn [context_file context fs out].
    by rewrite insert_insert_eq.
  - unfold writable, set_fs, set_context. cbn [context_file context fs out].
    by rewrite lookup_insert_eq.
Qed.

(** C2. Whatever the context holds and whatever the file held, saving
    leaves in the file exactly the last min(length, 10) entries of the
    context, in their order, and touches no other file; so after a run of
    more than ten chat turns the file holds exactly ten entries, the last
    ten of the conversation in order. *)
Theorem save_keeps_last_ten :
  (forall env w items,
      context w = JArr items ->
      writable w ->
      save_context env w
      = (set_fs (<[context_file w := Json (JArr (last_n 10 items))]> (fs w)) w,
         Ok tt)
      /\ length (last_n 10 items) = Nat.min (length items) 10
      /\ last_n 10 items `suffix_of` items)
  /\ (forall turns w l,
         context w = ctx l ->
         writable w ->
         10 < length turns ->
         let w' := (chat_turns turns w).1 in
         let saved := last_n 10 (transcript turns l) in
         (chat_turns turns w).2 = Ok tt
         /\ context w' = ctx (transcript turns l)
         /\ fs w' = <[context_file w := Json (ctx saved)]> (fs w)
         /\ length saved = 10
         /\ saved `suffix_of` transcript turns l
         /\ l `prefix_of` transcript turns l).
Proof.
  split.
  - intros env w items Hctx Hw. split; [by apply save_context_list|].
    split; [apply length_last_n|apply last_n_suffix].
  - intros turns w l Hctx Hw Hlen. cbn zeta.
    rewrite (chat_turns_ok turns w l Hctx Hw)
      by (intros ->; simpl in Hlen; lia).
    cbn [fst snd set_fs set_context context fs].
    repeat split.
    + rewrite length_last_n, length_transcript. lia.
    + apply last_n_suffix.
    + apply transcript_prefix.
Qed.

Lemma save_keeps_last_ten_witness :
  (chat_turns (replicate 11 (canned_env, "hi", None)) (fresh ∅)).1.(fs)
    !! "context.json"
  = Some (Json (ctx ["You: hi"; "AI: ok"; "You: hi"; "AI: ok"; "You: hi";
                     "AI: ok"; "You: hi"; "AI: ok"; "You: hi"; "AI: ok"])).
Proof.
  destruct save_keeps_last_ten as [_ H].
  destruct (H (replicate 11 (canned_env, "hi", None)) (fresh ∅) [])
    as (_ & _ & Hfs & _).
  - reflexivity.
  - unfold writable. vm_compute. discriminate.
  - vm_compute. lia.
  - rewrite Hfs. vm_compute. reflexivity.
Defined.

(** ** The response generator *)

(** C3. On a context of strings, [generate_response] appends the user turn
    "You: prompt", renders the last ten entries one per line, hands the
    tokens of that text to the model with temperature 0.7, top-k 50,
    top-p 0.95, sampling on and the caller's length limit (200 when the
    caller gives none), appends the agent turn "AI: " followed by the
    decoded output as it is, saves the context and returns the decoded
    output.  So two chat turns from an empty context leave exactly four
    entries: user, agent, user, agent. *)
Theorem generate_response_spec :
  (forall env prompt limit w l,
      context w = ctx l ->
      writable w ->
      let user_turn := "You: " +:+ prompt in
      let rendered := PyStr.join newline (last_n 10 (l ++ [user_turn])) in
      let kwargs :=
        {| max_length := match limit with Some n => n | None => 200%Z end;
           temperature := 0.7; top_k := 50; top_p := 0.95;
           do_sample := true |} in
      let response :=
        decode env (model_generate env (tokenizer env rendered) kwargs) in
      let after := l ++ [user_turn; "AI: " +:+ response] in
      generate_response prompt limit env w
      = (set_fs (<[context_file w := Json (ctx (last_n 10 after))]> (fs w))
           (set_context (ctx after) w),
         Ok response))
  /\ (forall env1 env2 prompt1 prompt2 limit1 limit2 w,
         context w = ctx [] ->
         writable w ->
         let answer1 := reply env1 limit1 [] prompt1 in
         let first := ["You: " +:+ prompt1; "AI: " +:+ answer1] in
         let answer2 := reply env2 limit2 first prompt2 in
         context
           (chat_turns [(env1, prompt1, limit1); (env2, prompt2, limit2)] w).1
         = ctx ["You: " +:+ prompt1; "AI: " +:+ answer1;
                "You: " +:+ prompt2; "AI: " +:+ answer2]).
Proof.
  split.
  - intros env prompt [limit|] w l Hctx Hw; cbn zeta;
      by rewrite (generate_response_ok _ _ _ w l).
  - intros env1 env2 prompt1 prompt2 limit1 limit2 w Hctx Hw.
    by rewrite (chat_turns_ok _ w [] Hctx Hw).
Qed.

Lemma generate_response_spec_witness :
  generate_response "hello" None canned_env (fresh ∅)
  = (set_fs {["context.json" := Json (ctx ["You: hello"; "AI: ok"])]}
       (set_context (ctx ["You: hello"; "AI: ok"]) (fresh ∅)),
     Ok "ok").
Proof.
  destruct generate_response_spec as [H _].
  rewrite (H canned_env "hello" None (fresh ∅) []).
  - reflexivity.
  - reflexivity.
  - unfold writable. vm_compute. discriminate.
Defined.

(** ** The executors *)

Lemma summarize_file_run env (file_path : string) (w : World) :
  summarize_file file_path env w
  = (w, match fs w !! file_path with
        | None => Ok (file_not_found file_path)
        | Some (Text s) => Ok (summary_of s)
        | Some (Json v) => Ok (summary_of (json_dumps env v))
        | Some Opaque => Raise FileError
        end).
Proof.
  unfold summarize_file, os_path_exists. run.
  destruct (fs w !! file_path) as [entry|] eqn:Hfile; [|done].
  cbn [negb bool_decide decide_rel is_Some_dec].
  unfold read_text, bind, ask, gets. rewrite Hfile.
  by destruct entry.
Qed.

(** C4, as the code has it.  A path that exists but cannot be read (a
    directory) does not give the not-found message: the failure of
    [open] leaves the executor.  And a summary starts with a label. *)
Lemma summarize_file_counterexample :
  let w := fresh {["notes" := Opaque]} in
  let fifty := "0123456789012345678901234567890123456789012345678!" in
  let w' := fresh {["fifty.txt" := Text fifty]} in
  summarize_file "notes" canned_env w = (w, Raise FileError)
  /\ String.length fifty = 50
  /\ summarize_file "fifty.txt" canned_env w' <> (w', Ok (fifty +:+ "...")).
Proof.
  cbn zeta. rewrite !summarize_file_run.
  split; [|split]; [by vm_compute|done|vm_compute; discriminate].
Qed.

(** C4, amended.  The summarize executor answers with the not-found
    message exactly when the path does not exist; for a file that reads as
    text it returns the label "Summary: ", the first 200 characters of the
    content and the marker "...", the marker whether or not anything was
    cut, so a content of at most 200 characters comes back whole between
    label and marker; a path that exists and cannot be read makes the
    executor fail with the error of the file system. *)
Theorem summarize_file_spec env (file_path : string) (w : World) :
  (summarize_file file_path env w = (w, Ok ("File '" +:+ file_path +:+ "' not found."))
   <-> fs w !! file_path = None)
  /\ (forall content,
         fs w !! file_path = Some (Text content) ->
         summarize_file file_path env w
         = (w, Ok ("Summary: " +:+ PyStr.take 200 content +:+ "..."))
         /\ String.length (PyStr.take 200 content)
            = Nat.min 200 (String.length content)
         /\ (String.length content <= 200 ->
             summarize_file file_path env w
             = (w, Ok ("Summary: " +:+ content +:+ "..."))))
  /\ (fs w !! file_path = Some Opaque ->
      summarize_file file_path env w = (w, Raise FileError)).
Proof.
  rewrite summarize_file_run. split; [|split].
  - destruct (fs w !! file_path) as [[]|]; split; try done;
      intros H; vm_compute in H; discriminate.
  - intros content ->. split; [done|]. split; [apply length_take|].
    intros Hlen. unfold summary_of. by rewrite take_short.
  - by intros ->.
Qed.

Lemma summarize_file_spec_witness :
  summarize_file "a.txt" canned_env (fresh {["a.txt" := Text "short"]})
  = (fresh {["a.txt" := Text "short"]}, Ok "Summary: short...").
Proof.
  destruct (summarize_file_spec canned_env "a.txt"
              (fresh {["a.txt" := Text "short"]})) as (_ & H & _).
  destruct (H "short") as (_ & _ & Hshort).
  - vm_compute. reflexivity.
  - apply Hshort. vm_compute. lia.
Defined.

Lemma get_weather_not_200 env (location : string) (w : World) (r : Response) :
  requests_get env (weather_url location) = Ok r ->
  status_code r <> 200%Z ->
  get_weather location env w = (w, Ok weather_failure).
Proof.
  intros Hget Hstatus. unfold get_weather. run.
  run_with ltac:(unfold lift; by rewrite Hget).
  by rewrite bool_decide_eq_false_2.
Qed.

(** C6. When the weather service answers with a status that is not a
    success, [get_weather] returns the fixed failure message: nothing is
    raised, and neither the status nor the body shows in the result.  The
    same holds when the call comes through the router. *)
Theorem get_weather_failure_message env (location : string) (w : World)
    (r : Response) :
  requests_get env (weather_url location) = Ok r ->
  non_success (status_code r) ->
  get_weather location env w
  = (w, Ok "Unable to fetch weather data. Please check the location.")
  /\ perform_task ("get weather " +:+ location) env w
     = (w, Ok "Unable to fetch weather data. Please check the location.").
Proof.
  intros Hget Hstatus.
  assert (status_code r <> 200%Z) as Hne by (unfold non_success in Hstatus; lia).
  rewrite perform_task_get_weather.
  split; exact (get_weather_not_200 env location w r Hget Hne).
Qed.

Lemma get_weather_failure_message_witness :
  get_weather "Paris" canned_env (fresh ∅)
  = (fresh ∅, Ok "Unable to fetch weather data. Please check the location.").
Proof.
  apply (get_weather_failure_message canned_env "Paris" (fresh ∅)
           {| status_code := 404; body := None |}).
  - reflexivity.
  - unfold non_success. simpl. lia.
Defined.

(** ** Loading the context *)

Lemma load_context_run env (w : World) :
  load_context env w
  = (w, match fs w !! context_file w with
        | None => Ok (JArr [])
        | Some (Json v) => Ok v
        | Some (Text _) => Raise DecodeError
        | Some Opaque => Raise FileError
        end).
Proof.
  unfold load_context, os_path_exists. run. run.
  destruct (fs w !! context_file w) as [entry|] eqn:Hfile; [|done].
  cbn [bool_decide decide_rel is_Some_dec].
  unfold json_load, bind, gets. rewrite Hfile.
  by destruct entry.
Qed.

(** C5, as the code has it.  A persisted file that is not JSON, or that
    cannot be opened, makes [load_context] raise: the error of the
    decoder or of the file system reaches the caller, and building the
    agent fails with it. *)
Lemma load_context_counterexample :
  let corrupt := fresh {["context.json" := Text "{not json"]} in
  let locked := fresh {["context.json" := Opaque]} in
  load_context canned_env corrupt = (corrupt, Raise DecodeError)
  /\ load_context canned_env locked = (locked, Raise FileError)
  /\ (init "context.json" canned_env corrupt).2 = Raise DecodeError.
Proof. cbn zeta. rewrite !load_context_run. by vm_compute. Qed.

(** C5, amended.  [load_context] never changes the state; it returns the
    empty context when no persisted file exists and the decoded content
    when the file holds a JSON document, and it raises to the caller when
    the file exists but is not JSON or cannot be opened. *)
Theorem load_context_spec env (w : World) :
  (load_context env w).1 = w
  /\ (load_context env w).2
     = match fs w !! context_file w with
       | None => Ok (JArr [])
       | Some (Json v) => Ok v
       | Some (Text _) => Raise DecodeError
       | Some Opaque => Raise FileError
       end.
Proof. by rewrite load_context_run. Qed.

(** C10. Loading does not cut the list: a persisted file that holds a list
    of any length comes back whole, and the agent starts with all of it in
    memory; the cut to ten entries is made when the context is rendered
    for the model and when it is saved, where the entries before the last
    ten are dropped. *)
Theorem load_context_keeps_all env (w : World) (items : list json) :
  fs w !! context_file w = Some (Json (JArr items)) ->
  load_context env w = (w, Ok (JArr items))
  /\ context (init (context_file w) env w).1 = JArr items
  /\ fs (init (context_file w) env w).1 = fs w
  /\ slice_last10 (JArr items) = Ok (JArr (drop (length items - 10) items)).
Proof.
  intros Hfile.
  assert (forall w0, fs w0 = fs w -> context_file w0 = context_file w ->
                     load_context env w0 = (w0, Ok (JArr items))) as Hload.
  { intros w0 Hfs Hpath. by rewrite load_context_run, Hfs, Hpath, Hfile. }
  split; [by apply Hload|].
  unfold init. run. run. run.
  run_with ltac:(by apply Hload).
  done.
Qed.

Lemma load_context_keeps_all_witness :
  let eleven := JStr <$> replicate 11 "You: hi" in
  let w := fresh {["context.json" := Json (JArr eleven)]} in
  load_context canned_env w = (w, Ok (JArr eleven)) /\ length eleven = 11.
Proof.
  cbn zeta. split; [|done].
  apply (load_context_keeps_all canned_env
           (fresh {["context.json" := Json (JArr (JStr <$> replicate 11 "You: hi"))]})).
  vm_compute. reflexivity.
Defined.

(** ** Turns that are not chat *)

Lemma frame_ret {A} (a : A) : frame (ret a).
Proof. by intros env w. Qed.

Lemma frame_raise {A} (e : exn) : frame (raise (A := A) e).
Proof. by intros env w. Qed.

Lemma frame_lift {A} (r : result A) : frame (lift r).
Proof. by intros env w. Qed.

Lemma frame_ask : frame ask.
Proof. by intros env w. Qed.

Lemma frame_gets {A} (f : World -> A) : frame (gets f).
Proof. by intros env w. Qed.

Lemma frame_emit (e : event) : frame (emit e).
Proof. by intros env w. Qed.

Lemma frame_bind {A B} (m : M A) (k : A -> M B) :
  frame m -> (forall a, frame (k a)) -> frame (bind m k).
Proof.
  intros Hm Hk env w. unfold bind.
  destruct (Hm env w) as (Hc & Hp & Hf).
  destruct (m env w) as [w' [a|e]]; simpl in *.
  - destruct (Hk a env w') as (Hc' & Hp' & Hf'). by rewrite Hc', Hp', Hf'.
  - done.
Qed.

Lemma frame_if {A} (b : bool) (m1 m2 : M A) :
  frame m1 -> frame m2 -> frame (if b then m1 else m2).
Proof. by destruct b. Qed.

Create HintDb frame discriminated.
#[local] Hint Resolve frame_ret frame_raise frame_lift frame_ask frame_gets
  frame_emit frame_if : frame.
#[local] Hint Extern 2 (frame (bind _ _)) =>
  apply frame_bind; [|intros ?] : frame.

Lemma frame_text_to_speech (text : string) : frame (text_to_speech text).
Proof. unfold text_to_speech. auto with frame. Qed.

Lemma frame_speech_to_text : frame speech_to_text.
Proof.
  unfold speech_to_text. apply frame_bind; [auto with frame|].
  intros env. destruct (listen env); auto 10 with frame.
Qed.

Lemma frame_summarize_file (file_path : string) : frame (summarize_file file_path).
Proof. intros env w. by rewrite summarize_file_run. Qed.

Lemma frame_get_weather (location : string) : frame (get_weather location).
Proof. unfold get_weather. auto 20 with frame. Qed.

(** A task leaves the context and every file alone, whichever executor
    runs and however it ends. *)
Lemma frame_perform_task (task : string) : frame (perform_task task).
Proof.
  unfold perform_task.
  repeat apply frame_if; auto using frame_get_weather with frame.
  apply frame_bind; [auto with frame|].
  intros [? ?]. apply frame_summarize_file.
Qed.

Lemma bind_ret_l {A B} (a : A) (k : A -> M B) : bind (ret a) k = k a.
Proof. reflexivity. Qed.

(** An input that is empty or carries the task marker is neither of the
    two console commands. *)
Lemma non_chat_not_command (line : string) :
  line = "" \/ PyStr.startswith "task: " line = true ->
  PyStr.lower line <> "exit" /\ PyStr.lower line <> "voice".
Proof.
  intros [->|[rest ->]%startswith_iff]; split; intros H;
    vm_compute in H; discriminate.
Qed.

(** What both front ends do with an input that is not chat: nothing for
    the empty input, the task without the marker otherwise. *)
Lemma frame_non_chat {A} (user_input : string) (on_task chat idle : M A) :
  user_input = "" \/ PyStr.startswith "task: " user_input = true ->
  frame on_task -> frame idle ->
  frame (if PyStr.truthy user_input then
           if PyStr.startswith "task: " user_input then on_task else chat
         else idle).
Proof.
  intros [->|Htask] Hon Hidle; [done|].
  rewrite Htask. by destruct (PyStr.truthy user_input).
Qed.

Lemma frame_console_turn (line : string) :
  line = "" \/ PyStr.startswith "task: " line = true ->
  frame (console_turn line).
Proof.
  intros Hline. destruct (non_chat_not_command line Hline) as [Hexit Hvoice].
  unfold console_turn.
  rewrite !bool_decide_eq_false_2 by done. rewrite bind_ret_l.
  apply frame_bind; [|auto with frame].
  apply frame_non_chat; auto using frame_perform_task with frame.
Qed.

Lemma frame_web_interface (enable_tts : bool) (typed : string) (submit : bool) :
  typed = "" \/ PyStr.startswith "task: " typed = true ->
  frame (web_interface false enable_tts typed submit).
Proof.
  intros Htyped. unfold web_interface. rewrite bind_ret_l.
  apply frame_if; [|auto with frame].
  apply frame_non_chat;
    auto 10 using frame_perform_task, frame_text_to_speech with frame.
Qed.

Lemma speech_to_text_recognized env (w : World) (text : string) :
  listen env = Recognized text ->
  speech_to_text env w = (set_out (out w ++ [Print "Listening..."]) w, Ok text).
Proof. intros H. unfold speech_to_text. run. by rewrite H. Qed.

Lemma frame_console_voice env (w : World) (typed text : string) :
  PyStr.lower typed = "voice" ->
  listen env = Recognized text ->
  text = "" \/ PyStr.startswith "task: " text = true ->
  context (console_turn typed env w).1 = context w
  /\ context_file (console_turn typed env w).1 = context_file w
  /\ fs (console_turn typed env w).1 = fs w.
Proof.
  intros Htyped Hheard Htext. unfold console_turn. rewrite Htyped.
  cbn [bool_decide decide_rel]. rewrite bool_decide_eq_false_2 by done.
  rewrite bool_decide_eq_true_2 by done.
  erewrite run_bind.
  2:{ run_with ltac:(by apply speech_to_text_recognized). run. reflexivity. }
  match goal with
  | |- context [bind ?m ?k env ?w1] =>
      assert (frame (bind m k)) as Hrest;
      [|destruct (Hrest env w1) as (Hc & Hp & Hf)]
  end.
  { apply frame_bind; [|auto with frame].
    apply frame_non_chat; auto using frame_perform_task with frame. }
  by rewrite Hc, Hp, Hf.
Qed.

(** C7. A turn whose input is empty or wrapped in the task marker leaves
    the context in memory and every file, the persisted context among
    them, exactly as they were: on the console, on the web page, and when
    the input comes from the microphone; this holds however the task
    ends.  The task itself touches nothing at all. *)
Theorem non_chat_turn_frame env (line : string) (w : World) :
  line = "" \/ PyStr.startswith "task: " line = true ->
  (context (console_turn line env w).1 = context w
   /\ context_file (console_turn line env w).1 = context_file w
   /\ fs (console_turn line env w).1 = fs w)
  /\ (forall enable_tts submit,
         context (web_interface false enable_tts line submit env w).1 = context w
         /\ context_file (web_interface false enable_tts line submit env w).1
            = context_file w
         /\ fs (web_interface false enable_tts line submit env w).1 = fs w)
  /\ (listen env = Recognized line ->
      context (console_turn "voice" env w).1 = context w
      /\ context_file (console_turn "voice" env w).1 = context_file w
      /\ fs (console_turn "voice" env w).1 = fs w)
  /\ (forall task,
         context (perform_task task env w).1 = context w
         /\ context_file (perform_task task env w).1 = context_file w
         /\ fs (perform_task task env w).1 = fs w).
Proof.
  intros Hline. split; [|split; [|split]].
  - by apply frame_console_turn.
  - intros enable_tts submit. by apply frame_web_interface.
  - intros Hheard. by apply (frame_console_voice env w "voice" line).
  - intros task. apply frame_perform_task.
Qed.

Lemma non_chat_turn_frame_witness :
  let w := fresh {["context.json" := Json (ctx ["You: hi"; "AI: ok"])]} in
  fs (console_turn "task: get weather Paris" canned_env w).1 = fs w
  /\ context (console_turn "task: get weather Paris" canned_env w).1 = context w.
Proof.
  cbn zeta.
  destruct (non_chat_turn_frame canned_env "task: get weather Paris"
              (fresh {["context.json" := Json (ctx ["You: hi"; "AI: ok"])]}))
    as ((Hc & _ & Hf) & _).
  - right. reflexivity.
  - split; [exact Hf|exact Hc].
Defined.

(** ** The bound on the persisted context *)

(** [save_context] in full: a file that cannot be opened stops it before
    anything changes; otherwise the file is emptied, and it receives the
    last ten items unless the context cannot be sliced. *)
Lemma save_context_run env (w : World) :
  save_context env w
  = match fs w !! context_file w with
    | Some Opaque => (w, Raise FileError)
    | _ =>
        match slice_last10 (context w) with
        | Ok recent =>
            (set_fs (<[context_file w := Json recent]> (fs w)) w, Ok tt)
        | Raise e =>
            (set_fs (<[context_file w := Text ""]> (fs w)) w, Raise e)
        end
    end.
Proof.
  unfold save_context. run. unfold open_w.
  unfold bind at 1. unfold bind at 1. unfold gets at 1.
  destruct (fs w !! context_file w) as [[]|] eqn:Hfile; try done;
    unfold modify at 1; unfold bind at 1; unfold gets at 1;
    cbn [context set_fs]; unfold bind, lift, json_dump, modify;
    destruct (slice_last10 (context w)); try done;
    unfold set_fs; cbn [context_file context fs out];
    by rewrite insert_insert_eq.
Qed.

Lemma persisted_bounded_same (w w' : World) :
  fs w' = fs w -> context_file w' = context_file w ->
  persisted_bounded w -> persisted_bounded w'.
Proof. unfold persisted_bounded. by intros -> ->. Qed.

Lemma frame_keeps_bound {A} (m : M A) : frame m -> keeps_bound m.
Proof.
  intros Hm env w. destruct (Hm env w) as (_ & Hp & Hf).
  by apply persisted_bounded_same.
Qed.

Lemma keeps_bound_bind {A B} (m : M A) (k : A -> M B) :
  keeps_bound m -> (forall a, keeps_bound (k a)) -> keeps_bound (bind m k).
Proof.
  intros Hm Hk env w Hw. unfold bind. specialize (Hm env w Hw).
  destruct (m env w) as [w' [a|e]]; [by apply Hk|done].
Qed.

Lemma keeps_bound_if {A} (b : bool) (m1 m2 : M A) :
  keeps_bound m1 -> keeps_bound m2 -> keeps_bound (if b then m1 else m2).
Proof. by destruct b. Qed.

Lemma keeps_bound_context_append (item : json) :
  keeps_bound (context_append item).
Proof.
  intros env w. unfold context_append, bind, gets.
  by destruct (context w).
Qed.

(** Whatever the state, what [save_context] leaves in the file is within
    the bound. *)
Lemma save_context_bounded env (w : World) :
  (fs w !! context_file w = Some Opaque -> (save_context env w).1 = w)
  /\ (fs w !! context_file w <> Some Opaque ->
      persisted_bounded (save_context env w).1).
Proof.
  rewrite save_context_run. split.
  - by intros ->.
  - intros Hw.
    assert (persisted_bounded
              match slice_last10 (context w) with
              | Ok recent =>
                  (set_fs (<[context_file w := Json recent]> (fs w)) w, Ok tt)
              | Raise e =>
                  (set_fs (<[context_file w := Text ""]> (fs w)) w,
                   Raise (A := unit) e)
              end.1) as Hgoal.
    { unfold persisted_bounded.
      destruct (context w) as [| | | s|items'|]; cbn; intros items;
        rewrite lookup_insert_eq; intros [= <-].
      rewrite length_last_n. lia. }
    by destruct (fs w !! context_file w) as [[]|].
Qed.

Lemma keeps_bound_save_context : keeps_bound save_context.
Proof.
  intros env w Hw. destruct (save_context_bounded env w) as [Hsame Hnew].
  destruct (fs w !! context_file w) as [[]|];
    [by rewrite Hsame|by apply Hnew..].
Qed.

#[local] Hint Resolve keeps_bound_if keeps_bound_context_append
  keeps_bound_save_context : frame.
#[local] Hint Extern 2 (keeps_bound (bind _ _)) =>
  apply keeps_bound_bind; [|intros ?] : frame.
#[local] Hint Extern 5 (keeps_bound _) =>
  apply frame_keeps_bound : frame.
#[local] Hint Resolve frame_perform_task frame_text_to_speech
  frame_speech_to_text : frame.

Lemma keeps_bound_generate_response (prompt : string) (limit : option Z) :
  keeps_bound (generate_response prompt limit).
Proof. unfold generate_response. auto 20 with frame. Qed.

Lemma keeps_bound_console_turn (line : string) : keeps_bound (console_turn line).
Proof.
  unfold console_turn.
  auto 20 using keeps_bound_generate_response with frame.
Qed.

(** The bound on the persisted list is an invariant of the session. *)
Lemma console_loop_bounded turns (w : World) :
  persisted_bounded w -> persisted_bounded (console_loop turns w).1.
Proof.
  revert w. induction turns as [|[env line] rest IH]; intros w Hw; [done|].
  cbn [console_loop].
  match goal with
  | |- context [console_turn line env ?asked] =>
      assert (persisted_bounded (console_turn line env asked).1) as Hturn
        by (by apply keeps_bound_console_turn);
      destruct (console_turn line env asked) as [w' [[]|e]]; auto
  end.
Qed.

(** C8, as the code has it.  Nothing trims the context in memory: after
    six chat turns from an empty context, the sixth save done, it holds
    twelve entries, while the file holds the last ten. *)
Lemma context_in_memory_counterexample :
  let w' := (chat_turns (replicate 6 (canned_env, "hi", None)) (fresh ∅)).1 in
  context w' = ctx (concat (replicate 6 ["You: hi"; "AI: ok"]))
  /\ length (concat (replicate 6 ["You: hi"; "AI: ok"])) = 12
  /\ fs w' !! context_file w'
     = Some (Json (ctx (concat (replicate 5 ["You: hi"; "AI: ok"])))).
Proof. by vm_compute. Qed.

(** C8, amended.  What a save leaves in the file never exceeds ten
    entries, and this bound on the persisted list holds throughout a
    session that starts within it.  The context in memory is never
    trimmed: each chat turn makes it two entries longer, so after a save it
    can hold more than ten, of which the file has the last ten. *)
Theorem persisted_bound_invariant :
  (forall env w,
      fs w !! context_file w <> Some Opaque ->
      persisted_bounded (save_context env w).1)
  /\ (forall turns w,
         persisted_bounded w -> persisted_bounded (console_loop turns w).1)
  /\ (forall turns w l,
         context w = ctx l ->
         writable w ->
         turns <> [] ->
         let w' := (chat_turns turns w).1 in
         let now := transcript turns l in
         context w' = ctx now
         /\ length now = length l + 2 * length turns
         /\ fs w' !! context_file w' = Some (Json (ctx (last_n 10 now)))
         /\ length (last_n 10 now) = Nat.min (length l + 2 * length turns) 10).
Proof.
  split; [|split].
  - intros env w. apply save_context_bounded.
  - apply console_loop_bounded.
  - intros turns w l Hctx Hw Hne. cbn zeta.
    rewrite (chat_turns_ok turns w l Hctx Hw Hne).
    cbn [fst set_fs set_context context context_file fs].
    rewrite lookup_insert_eq, length_last_n, length_transcript.
    done.
Qed.

Lemma persisted_bound_invariant_witness :
  persisted_bounded
    (console_loop [(canned_env, "hello"); (canned_env, "task: summarize a.txt");
                   (canned_env, "exit")] (fresh ∅)).1.
Proof.
  destruct persisted_bound_invariant as (_ & H & _).
  apply H. unfold persisted_bounded. intros items Hitems.
  vm_compute in Hitems. discriminate.
Defined.

(** ** A session, run *)

(** A chat turn, a task, an empty line and the exit command: what the user
    sees, and what is left in memory and on disk. *)
Example console_session :
  let session := [(canned_env, "hello"); (canned_env, "task: draft email hi");
                  (canned_env, ""); (canned_env, "EXIT")] in
  let w' := (console_loop session (fresh ∅)).1 in
  let ask := Prompt (newline +:+ "You: ") in
  out w' = [ask; Print "AI: ok"; Say "ok";
            ask; Print "Drafting an email based on your input: hi";
            ask;
            ask; Print "Goodbye!"]
  /\ context w' = ctx ["You: hello"; "AI: ok"]
  /\ fs w' !! "context.json" = Some (Json (ctx ["You: hello"; "AI: ok"])).
Proof. by vm_compute. Qed.

(** A task on the web page with speech on: the path is stripped at both
    ends before the file is looked up. *)
Example web_task :
  let w := fresh {["a.txt" := Text "abc"]} in
  let w' := (web_interface false true "task: summarize  a.txt " true canned_env w).1 in
  out w' = [Show "Summary: abc..."; Say "Summary: abc..."]
  /\ context w' = context w /\ fs w' = fs w.
Proof. by vm_compute. Qed.

(** ** Relations every run respects

    The methods are sequences of a few primitive state changes.  A
    relation between the state before and the state after that is
    reflexive and transitive, and that each primitive change respects, is
    respected by every method and by the whole session. *)

Section Steps.

Context (R : World -> World -> Prop).
Context (R_refl : forall w, R w w).
Context (R_trans : forall w1 w2 w3, R w1 w2 -> R w2 w3 -> R w1 w3).

Lemma steps_ret {A} (a : A) : steps R (ret a).
Proof. intros env w. apply R_refl. Qed.

Lemma steps_raise {A} (e : exn) : steps R (raise (A := A) e).
Proof. intros env w. apply R_refl. Qed.

Lemma steps_lift {A} (r : result A) : steps R (lift r).
Proof. intros env w. apply R_refl. Qed.

Lemma steps_ask : steps R ask.
Proof. intros env w. apply R_refl. Qed.

Lemma steps_gets {A} (f : World -> A) : steps R (gets f).
Proof. intros env w. apply R_refl. Qed.

Lemma steps_bind {A B} (m : M A) (k : A -> M B) :
  steps R m -> (forall a, steps R (k a)) -> steps R (bind m k).
Proof.
  intros Hm Hk env w. unfold bind. specialize (Hm env w).
  destruct (m env w) as [w' [a|e]]; [|done].
  apply (R_trans _ w'); [done|apply Hk].
Qed.

Lemma steps_if {A} (b : bool) (m1 m2 : M A) :
  steps R m1 -> steps R m2 -> steps R (if b then m1 else m2).
Proof. by destruct b. Qed.

Create HintDb steps discriminated.
#[local] Hint Resolve steps_ret steps_raise steps_lift steps_ask steps_gets
  steps_if : steps.
#[local] Hint Extern 2 (steps _ (bind _ _)) =>
  apply steps_bind; [|intros ?] : steps.

Lemma steps_summarize_file (file_path : string) :
  steps R (summarize_file file_path).
Proof. intros env w. rewrite summarize_file_run. apply R_refl. Qed.

Lemma steps_get_weather (location : string) : steps R (get_weather location).
Proof. unfold get_weather. auto 20 with steps. Qed.

(** A task respects every such relation: it changes nothing. *)
Lemma steps_perform_task (task : string) : steps R (perform_task task).
Proof.
  unfold perform_task.
  repeat apply steps_if; auto using steps_get_weather with steps.
  apply steps_bind; [auto with steps|].
  intros [? ?]. apply steps_summarize_file.
Qed.

Context (allowed : event -> Prop).
Context (R_emit : forall e w, allowed e -> R w (set_out (out w ++ [e]) w)).
Context (R_append : forall item w items,
            context w = JArr items ->
            R w (set_context (JArr (items ++ [item])) w)).
Context (R_save : forall env w, R w (save_context env w).1).
Context (allowed_prompt : forall s, allowed (Prompt s)).
Context (allowed_print : forall s, allowed (Print s)).
Context (allowed_show : forall s, allowed (Show s)).

Lemma steps_emit (e : event) : allowed e -> steps R (emit e).
Proof. intros He env w. by apply R_emit. Qed.

Lemma steps_context_append (item : json) : steps R (context_append item).
Proof.
  intros env w. unfold context_append, bind, gets.
  destruct (context w) eqn:Hctx; try apply R_refl. by apply R_append.
Qed.

Lemma steps_save_context : steps R save_context.
Proof. intros env w. apply R_save. Qed.

#[local] Hint Resolve steps_context_append steps_save_context
  steps_perform_task : steps.
#[local] Hint Extern 1 (steps _ (emit _)) =>
  apply steps_emit; auto : steps.

Lemma steps_generate_response (prompt : string) (limit : option Z) :
  steps R (generate_response prompt limit).
Proof. unfold generate_response. auto 20 with steps. Qed.

Lemma steps_speech_to_text : steps R speech_to_text.
Proof.
  unfold speech_to_text. apply steps_bind; [auto with steps|].
  intros env. destruct (listen env); auto 10 with steps.
Qed.

Lemma steps_text_to_speech (text : string) :
  allowed (Say text) -> steps R (text_to_speech text).
Proof. intros. by apply steps_emit. Qed.

#[local] Hint Resolve steps_generate_response steps_speech_to_text
  steps_text_to_speech : steps.

Lemma steps_console_turn (line : string) :
  (forall s, allowed (Say s)) -> steps R (console_turn line).
Proof. intros Hsay. unfold console_turn. auto 20 with steps. Qed.

(** A console turn on a task or on nothing never needs speech. *)
Lemma steps_console_turn_non_chat (line : string) :
  line = "" \/ PyStr.startswith "task: " line = true ->
  steps R (console_turn line).
Proof.
  intros Hline. destruct (non_chat_not_command line Hline) as [Hexit Hvoice].
  unfold console_turn.
  rewrite !bool_decide_eq_false_2 by done. rewrite bind_ret_l.
  apply steps_bind; [|auto with steps].
  destruct Hline as [->|Htask]; [cbn; auto with steps|].
  rewrite Htask. destruct (PyStr.truthy line); auto 10 with steps.
Qed.

Lemma steps_web_interface (use_voice enable_tts : bool) (typed : string)
    (submit : bool) :
  (enable_tts = true -> forall s, allowed (Say s)) ->
  steps R (web_interface use_voice enable_tts typed submit).
Proof.
  intros Hsay. unfold web_interface.
  destruct enable_tts; [specialize (Hsay eq_refl)|]; auto 30 with steps.
Qed.

Lemma steps_console_loop turns (w : World) :
  (forall s, allowed (Say s)) -> R w (console_loop turns w).1.
Proof.
  intros Hsay. revert w.
  induction turns as [|[env line] rest IH]; intros w; cbn [console_loop].
  - by apply R_emit.
  - match goal with
    | |- context [console_turn line env ?asked] =>
        assert (R w asked) as Hasked by (by apply R_emit);
        pose proof (steps_console_turn line Hsay env asked) as Hturn;
        destruct (console_turn line env asked) as [w' [[]|e]]; cbn [fst] in *
    end.
    + apply (R_trans _ w'); [|apply IH]. by apply (R_trans _ _ _ Hasked).
    + by apply (R_trans _ _ _ Hasked).
    + by apply (R_trans _ _ _ Hasked).
Qed.

End Steps.

(** ** What a session never does *)

Lemma save_context_fields env (w : World) :
  context (save_context env w).1 = context w
  /\ context_file (save_context env w).1 = context_file w
  /\ out (save_context env w).1 = out w
  /\ (forall path, path <> context_file w ->
                   fs (save_context env w).1 !! path = fs w !! path).
Proof.
  rewrite save_context_run.
  destruct (fs w !! context_file w) as [[]|];
    try destruct (slice_last10 (context w));
    cbn [fst set_fs context context_file out fs];
    repeat split; try done; intros path Hpath; by rewrite lookup_insert_ne.
Qed.

Lemma untouched_refl (w : World) : untouched w w.
Proof. done. Qed.

Lemma untouched_trans (w1 w2 w3 : World) :
  untouched w1 w2 -> untouched w2 w3 -> untouched w1 w3.
Proof. unfold untouched. congruence. Qed.

Lemma out_grows_refl allowed (w : World) : out_grows allowed w w.
Proof. exists []. by rewrite app_nil_r. Qed.

Lemma out_grows_trans allowed (w1 w2 w3 : World) :
  out_grows allowed w1 w2 -> out_grows allowed w2 w3 -> out_grows allowed w1 w3.
Proof.
  intros [more1 [H1 Hall1]] [more2 [H2 Hall2]]. exists (more1 ++ more2).
  split; [by rewrite H2, H1, (assoc_L (++))|by apply Forall_app].
Qed.

Lemma out_grows_emit allowed (e : event) (w : World) :
  allowed e -> out_grows allowed w (set_out (out w ++ [e]) w).
Proof. intros He. exists [e]. split; [done|by apply Forall_singleton]. Qed.

Lemma out_grows_append allowed (item : json) (w : World) (items : list json) :
  context w = JArr items ->
  out_grows allowed w (set_context (JArr (items ++ [item])) w).
Proof. intros _. exists []. by rewrite app_nil_r. Qed.

Lemma out_grows_save allowed env (w : World) :
  out_grows allowed w (save_context env w).1.
Proof.
  destruct (save_context_fields env w) as (_ & _ & Hout & _).
  exists []. by rewrite Hout, app_nil_r.
Qed.

Lemma other_files_kept_refl (w : World) : other_files_kept w w.
Proof. by split. Qed.

Lemma other_files_kept_trans (w1 w2 w3 : World) :
  other_files_kept w1 w2 -> other_files_kept w2 w3 -> other_files_kept w1 w3.
Proof.
  intros [Hp1 Hf1] [Hp2 Hf2]. split; [congruence|].
  intros path Hpath. rewrite Hf2, Hf1; congruence.
Qed.

Lemma other_files_kept_emit (e : event) (w : World) :
  any_event e -> other_files_kept w (set_out (out w ++ [e]) w).
Proof. by split. Qed.

Lemma other_files_kept_append (item : json) (w : World) (items : list json) :
  context w = JArr items ->
  other_files_kept w (set_context (JArr (items ++ [item])) w).
Proof. by split. Qed.

Lemma other_files_kept_save env (w : World) :
  other_files_kept w (save_context env w).1.
Proof. destruct (save_context_fields env w) as (_ & Hp & _ & Hf). by split. Qed.

Lemma context_grows_refl (w : World) : context_grows w w.
Proof.
  unfold context_grows. destruct (context w) eqn:Hctx; try done.
  exists []. by rewrite app_nil_r.
Qed.

Lemma context_grows_trans (w1 w2 w3 : World) :
  context_grows w1 w2 -> context_grows w2 w3 -> context_grows w1 w3.
Proof.
  unfold context_grows. intros H1 H2.
  destruct (context w1); try (rewrite H1 in H2; exact H2).
  destruct H1 as [more1 H1]. rewrite H1 in H2. destruct H2 as [more2 H2].
  exists (more1 ++ more2). by rewrite H2, (assoc_L (++)).
Qed.

Lemma context_grows_same (w w' : World) :
  context w' = context w -> context_grows w w'.
Proof.
  intros H. unfold context_grows. rewrite H.
  destruct (context w); try done. exists []. by rewrite app_nil_r.
Qed.

Lemma context_grows_emit (e : event) (w : World) :
  any_event e -> context_grows w (set_out (out w ++ [e]) w).
Proof. intros _. by apply context_grows_same. Qed.

Lemma context_grows_append (item : json) (w : World) (items : list json) :
  context w = JArr items ->
  context_grows w (set_context (JArr (items ++ [item])) w).
Proof. intros H. unfold context_grows. rewrite H. by exists [item]. Qed.

Lemma context_grows_save env (w : World) :
  context_grows w (save_context env w).1.
Proof.
  apply context_grows_same. by destruct (save_context_fields env w) as (-> & _).
Qed.

Lemma any_event_holds (e : event) : any_event e.
Proof. done. Qed.

Lemma perform_task_state env (task : string) (w : World) :
  (perform_task task env w).1 = w.
Proof.
  exact (steps_perform_task untouched untouched_refl untouched_trans task env w).
Qed.

(** X1. A task changes nothing at all: not the context, not a file, not
    even the output; whichever executor runs and whether it returns or
    raises, the state after [perform_task] is the state before. *)
Theorem perform_task_changes_nothing env (task : string) (w : World) :
  (perform_task task env w).1 = w.
Proof.
  exact (steps_perform_task untouched untouched_refl untouched_trans task env w).
Qed.

(** X2. Through a whole console session the agent writes to no file but
    its context file: its path stays the same, and every other path of
    the file system holds at the end what it held at the start. *)
Theorem session_writes_only_context_file turns (w : World) (path : string) :
  path <> context_file w ->
  context_file (console_loop turns w).1 = context_file w
  /\ fs (console_loop turns w).1 !! path = fs w !! path.
Proof.
  intros Hpath.
  destruct (steps_console_loop other_files_kept other_files_kept_refl
              other_files_kept_trans any_event other_files_kept_emit
              other_files_kept_append other_files_kept_save
              (fun s => any_event_holds _) (fun s => any_event_holds _)
              turns w (fun s => any_event_holds _)) as [Hp Hf].
  split; [done|by apply Hf].
Qed.

Lemma session_writes_only_context_file_witness :
  fs (console_loop [(canned_env, "hello"); (canned_env, "exit")]
        (fresh {["notes.txt" := Text "abc"]})).1 !! "notes.txt"
  = Some (Text "abc").
Proof.
  destruct (session_writes_only_context_file
              [(canned_env, "hello"); (canned_env, "exit")]
              (fresh {["notes.txt" := Text "abc"]}) "notes.txt") as [_ H].
  - vm_compute. discriminate.
  - rewrite H. vm_compute. reflexivity.
Defined.


(** X4. The context in memory is append-only through a console session:
    a context that is a list at the start is, at the end, that same list
    with entries added behind it; nothing is ever removed or rewritten. *)
Theorem session_context_append_only turns (w : World) (items : list json) :
  context w = JArr items ->
  exists more, context (console_loop turns w).1 = JArr (items ++ more).
Proof.
  intros Hctx.
  pose proof (steps_console_loop context_grows context_grows_refl
                context_grows_trans any_event context_grows_emit
                context_grows_append context_grows_save
                (fun s => any_event_holds _) (fun s => any_event_holds _)
                turns w (fun s => any_event_holds _)) as Hgrow.
  unfold context_grows in Hgrow. by rewrite Hctx in Hgrow.
Qed.

Lemma session_context_append_only_witness :
  exists more,
    context (console_loop [(canned_env, "hello"); (canned_env, "exit")]
               (set_context (ctx ["You: old"; "AI: older"]) (fresh ∅))).1
    = JArr ((JStr <$> ["You: old"; "AI: older"]) ++ more).
Proof.
  apply (session_context_append_only
           [(canned_env, "hello"); (canned_env, "exit")]
           (set_context (ctx ["You: old"; "AI: older"]) (fresh ∅))).
  reflexivity.
Defined.

(** X5. Speech is produced only where the code asks for it: a run of the
    web page with the speech box unticked never speaks, whatever the input
    and whether or not voice input is on; and on the console a task or an
    empty line is never spoken. *)
Theorem speech_only_when_asked env (w : World) :
  (forall use_voice typed submit,
      exists more,
        out (web_interface use_voice false typed submit env w).1 = out w ++ more
        /\ Forall not_speech more)
  /\ (forall line,
         line = "" \/ PyStr.startswith "task: " line = true ->
         exists more,
           out (console_turn line env w).1 = out w ++ more
           /\ Forall not_speech more).
Proof.
  split.
  - intros use_voice typed submit.
    by apply (steps_web_interface (out_grows not_speech)
                (out_grows_refl not_speech) (out_grows_trans not_speech)
                not_speech (out_grows_emit not_speech)
                (out_grows_append not_speech) (out_grows_save not_speech)).
  - intros line Hline.
    by apply (steps_console_turn_non_chat (out_grows not_speech)
                (out_grows_refl not_speech) (out_grows_trans not_speech)
                not_speech (out_grows_emit not_speech)).
Qed.

Lemma speech_only_when_asked_witness :
  exists more,
    out (console_turn "task: draft email hi" canned_env (fresh ∅)).1
    = out (fresh ∅) ++ more
    /\ Forall not_speech more.
Proof.
  destruct (speech_only_when_asked canned_env (fresh ∅)) as [_ H].
  apply H. right. reflexivity.
Defined.

(** ** The response generator on any list, and how it fails *)

(** X6. Only the entries that reach the model must be strings: on a
    context that is a list of any values, over a file that can be written,
    [generate_response] succeeds as soon as the last ten entries, the new
    user turn included, are strings; older entries of any shape are
    carried along untouched and the last ten entries are saved. *)
Theorem generate_response_on_list env (prompt : string) (limit : option Z)
    (w : World) (items : list json) (lines : list string) :
  context w = JArr items ->
  writable w ->
  str_items (last_n 10 (items ++ [JStr ("You: " +:+ prompt)])) = Some lines ->
  let response :=
    decode env (model_generate env (tokenizer env (PyStr.join newline lines))
                  (generate_kwargs (default 200%Z limit))) in
  let after :=
    items ++ [JStr ("You: " +:+ prompt); JStr ("AI: " +:+ response)] in
  generate_response prompt limit env w
  = (set_fs (<[context_file w := Json (JArr (last_n 10 after))]> (fs w))
       (set_context (JArr after) w),
     Ok response).
Proof.
  intros Hctx Hw Hlines. cbn zeta. unfold generate_response.
  run_with ltac:(apply context_append_list; exact Hctx).
  run.
  run_with ltac:(unfold lift; cbn [context set_context slice_last10]; reflexivity).
  run_with ltac:(unfold lift, py_join; by rewrite Hlines).
  run.
  run_with ltac:(by apply context_append_list).
  rewrite <- (assoc_L (++)).
  run_with ltac:(by apply save_context_list).
  reflexivity.
Qed.

Lemma generate_response_on_list_witness :
  (generate_response "hi" None canned_env
     (set_context (JArr [JNum "1"; JStr "a"; JStr "b"; JStr "c"; JStr "d";
                         JStr "e"; JStr "f"; JStr "g"; JStr "h"; JStr "i"])
        (fresh ∅))).2
  = Ok "ok".
Proof.
  erewrite (generate_response_on_list canned_env "hi" None).
  - reflexivity.
  - reflexivity.
  - unfold writable. vm_compute. discriminate.
  - vm_compute. reflexivity.
Defined.

(** X7. When one of the last ten entries, the new user turn included, is
    not a string, [generate_response] raises while rendering: the user
    turn has already been added to the context in memory and stays there,
    no agent turn is added, and nothing is saved. *)
Theorem generate_response_unrenderable env (prompt : string)
    (limit : option Z) (w : World) (items : list json) :
  context w = JArr items ->
  str_items (last_n 10 (items ++ [JStr ("You: " +:+ prompt)])) = None ->
  generate_response prompt limit env w
  = (set_context (JArr (items ++ [JStr ("You: " +:+ prompt)])) w,
     Raise DynamicError).
Proof.
  intros Hctx Hlines. unfold generate_response.
  run_with ltac:(apply context_append_list; exact Hctx).
  run.
  run_with ltac:(unfold lift; cbn [context set_context slice_last10]; reflexivity).
  erewrite run_bind_raise; [reflexivity|].
  unfold lift, py_join. by rewrite Hlines.
Qed.

Lemma generate_response_unrenderable_witness :
  generate_response "hi" None canned_env (set_context (JArr [JNum "1"]) (fresh ∅))
  = (set_context (JArr [JNum "1"; JStr "You: hi"]) (fresh ∅), Raise DynamicError).
Proof.
  apply (generate_response_unrenderable canned_env "hi" None
           (set_context (JArr [JNum "1"]) (fresh ∅)) [JNum "1"]);
    reflexivity.
Defined.

(** X8. When the context file cannot be opened for writing, the failure
    comes after the model has answered: [generate_response] raises the
    file error, the context in memory already holds both the user turn
    and the agent turn, the answer is lost to the caller, and the file
    system is as it was. *)
Theorem generate_response_unwritable env (prompt : string) (limit : option Z)
    (w : World) (l : list string) :
  context w = ctx l ->
  fs w !! context_file w = Some Opaque ->
  generate_response prompt limit env w
  = (set_context (ctx (exchange env limit l prompt)) w, Raise FileError).
Proof.
  intros Hctx Hfile. unfold generate_response.
  run_with ltac:(apply context_append_list; exact Hctx).
  rewrite ctx_app. run.
  run_with ltac:(unfold lift; cbn [context set_context];
                 by rewrite slice_last10_ctx).
  run_with ltac:(unfold lift; by rewrite py_join_ctx).
  run.
  run_with ltac:(by apply context_append_list).
  rewrite ctx_app, <- (assoc_L (++)).
  erewrite run_bind_raise; [reflexivity|].
  rewrite save_context_run. cbn [set_context fs context_file]. by rewrite Hfile.
Qed.

Lemma generate_response_unwritable_witness :
  generate_response "hi" None canned_env (fresh {["context.json" := Opaque]})
  = (set_context (ctx ["You: hi"; "AI: ok"]) (fresh {["context.json" := Opaque]}),
     Raise FileError).
Proof.
  apply (generate_response_unwritable canned_env "hi" None
           (fresh {["context.json" := Opaque]}) []).
  - reflexivity.
  - vm_compute. reflexivity.
Defined.

(** X9. A context that is not a list (a file that held a JSON object, a
    string, a number) makes every chat turn fail at once: the first
    [append] raises and nothing has changed, in memory or on disk. *)
Theorem generate_response_not_a_list env (prompt : string) (limit : option Z)
    (w : World) :
  (forall items, context w <> JArr items) ->
  generate_response prompt limit env w = (w, Raise DynamicError).
Proof.
  intros Hctx. unfold generate_response.
  erewrite run_bind_raise; [reflexivity|].
  unfold context_append, bind, gets, raise.
  destruct (context w) eqn:H; try done. by destruct (Hctx items).
Qed.

Lemma generate_response_not_a_list_witness :
  generate_response "hi" None canned_env (set_context (JObj []) (fresh ∅))
  = (set_context (JObj []) (fresh ∅), Raise DynamicError).
Proof.
  apply (generate_response_not_a_list canned_env "hi" None
           (set_context (JObj []) (fresh ∅))).
  intros items H. discriminate H.
Defined.

(** ** Saving, loading, restarting *)

(** X10. Saving is idempotent: a second [save_context] right after a
    first one ends the same way and leaves the same state, whatever the
    context and the file system were, and whichever way the first ended. *)
Theorem save_context_idempotent env env' (w : World) :
  save_context env' (save_context env w).1 = save_context env w.
Proof.
  rewrite !save_context_run.
  destruct (fs w !! context_file w) as [[]|] eqn:Hfile;
    cbn [fst]; try by rewrite Hfile.
  all: destruct (slice_last10 (context w)) as [recent|e] eqn:Hslice;
    cbn [fst set_fs context context_file fs];
    rewrite lookup_insert_eq, Hslice; unfold set_fs;
    cbn [context context_file fs out]; by rewrite insert_insert_eq.
Qed.

(** What a save that returns has written is what the next load returns. *)
Lemma save_then_load env env' (w w' : World) :
  save_context env w = (w', Ok tt) ->
  exists recent,
    slice_last10 (context w) = Ok recent
    /\ load_context env' w' = (w', Ok recent).
Proof.
  rewrite save_context_run, load_context_run. intros Hsave.
  assert (match slice_last10 (context w) with
          | Ok recent =>
              (set_fs (<[context_file w := Json recent]> (fs w)) w, Ok tt)
          | Raise e =>
              (set_fs (<[context_file w := Text ""]> (fs w)) w, Raise e)
          end = (w', Ok tt)) as Hwritten
    by (by destruct (fs w !! context_file w) as [[]|]).
  destruct (slice_last10 (context w)) as [recent|e]; [|done].
  injection Hwritten as <-. exists recent. split; [done|].
  cbn [set_fs context_file fs]. by rewrite lookup_insert_eq.
Qed.

(** X11. Save and load round-trip up to the cut: when [save_context]
    returns, a [load_context] on the state it leaves returns exactly the
    last ten items of the context that was saved (the whole context when
    it has at most ten), and changes nothing. *)
Theorem save_load_round_trip env env' (w w' : World) (items : list json) :
  context w = JArr items ->
  save_context env w = (w', Ok tt) ->
  load_context env' w' = (w', Ok (JArr (last_n 10 items)))
  /\ (length items <= 10 -> load_context env' w' = (w', Ok (context w))).
Proof.
  intros Hctx Hsave.
  destruct (save_then_load env env' w w' Hsave) as [recent [Hslice Hload]].
  rewrite Hctx in Hslice. injection Hslice as <-.
  split; [done|]. intros Hlen. rewrite Hload, Hctx. unfold last_n.
  by replace (length items - 10) with 0 by lia.
Qed.

Lemma save_load_round_trip_witness :
  let w := set_context (ctx ["You: hi"; "AI: ok"]) (fresh ∅) in
  load_context canned_env (save_context canned_env w).1
  = ((save_context canned_env w).1, Ok (ctx ["You: hi"; "AI: ok"])).
Proof.
  cbn zeta.
  destruct (save_load_round_trip canned_env canned_env
              (set_context (ctx ["You: hi"; "AI: ok"]) (fresh ∅))
              (save_context canned_env
                 (set_context (ctx ["You: hi"; "AI: ok"]) (fresh ∅))).1
              (JStr <$> ["You: hi"; "AI: ok"])) as [H _].
  - reflexivity.
  - vm_compute. reflexivity.
  - exact H.
Defined.

(** X12. An agent built again on the files a chat session left starts
    with the last ten entries of that session's context and no more: what
    was said before them is gone for good. *)
Theorem restart_keeps_last_ten env turns (w : World) (l : list string) :
  context w = ctx l ->
  writable w ->
  turns <> [] ->
  let left := (chat_turns turns w).1 in
  let again := (init (context_file w) env left).1 in
  (init (context_file w) env left).2 = Ok tt
  /\ context again = ctx (last_n 10 (transcript turns l))
  /\ fs again = fs left.
Proof.
  intros Hctx Hw Hne. cbn zeta.
  rewrite (chat_turns_ok turns w l Hctx Hw Hne). cbn [fst].
  unfold init. run. run. run.
  run_with ltac:(rewrite load_context_run;
                 cbn [set_fs set_context set_context_file set_out
                        context_file fs];
                 by rewrite lookup_insert_eq).
  done.
Qed.

Lemma restart_keeps_last_ten_witness :
  context
    (init "context.json" canned_env
       (chat_turns (replicate 6 (canned_env, "hi", None)) (fresh ∅)).1).1
  = ctx (concat (replicate 5 ["You: hi"; "AI: ok"])).
Proof.
  destruct (restart_keeps_last_ten canned_env
              (replicate 6 (canned_env, "hi", None)) (fresh ∅) [])
    as (_ & H & _).
  - reflexivity.
  - unfold writable. vm_compute. discriminate.
  - discriminate.
  - cbn [fresh context_file] in H. rewrite H. vm_compute. reflexivity.
Defined.

(** ** The console loop *)

Lemma console_turn_exit env (line : string) (w : World) :
  PyStr.lower line = "exit" ->
  console_turn line env w = (set_out (out w ++ [Print "Goodbye!"]) w, Ok false).
Proof.
  intros Hexit. unfold console_turn. by rewrite bool_decide_eq_true_2.
Qed.

Lemma console_loop_exit env (line : string) rest (w : World) :
  PyStr.lower line = "exit" ->
  console_loop ((env, line) :: rest) w
  = (set_out (out w ++ [Prompt (newline +:+ "You: "); Print "Goodbye!"]) w,
     Ok tt).
Proof.
  intros Hexit. cbn [console_loop]. rewrite (console_turn_exit _ _ _ Hexit).
  unfold set_out. cbn [context_file context fs out].
  by rewrite <- (assoc_L (++)).
Qed.

(** X13. The exit command, in any mix of letter cases, ends the session
    at once: the farewell is printed, the context and the files are as
    they were, the loop returns normally, and the lines after it are never
    read. *)
Theorem exit_ends_session env (line : string) rest (w : World) :
  PyStr.lower line = "exit" ->
  console_turn line env w = (set_out (out w ++ [Print "Goodbye!"]) w, Ok false)
  /\ console_loop ((env, line) :: rest) w
     = (set_out (out w ++ [Prompt (newline +:+ "You: "); Print "Goodbye!"]) w,
        Ok tt).
Proof.
  intros Hexit. split; [by apply console_turn_exit|by apply console_loop_exit].
Qed.

Lemma exit_ends_session_witness :
  console_loop [(canned_env, "Exit"); (canned_env, "hello")] (fresh ∅)
  = (set_out [Prompt (newline +:+ "You: "); Print "Goodbye!"] (fresh ∅), Ok tt).
Proof.
  apply (exit_ends_session canned_env "Exit" [(canned_env, "hello")] (fresh ∅)).
  reflexivity.
Defined.

Lemma console_turn_stops_on_exit_only env (line : string) (w w' : World) :
  console_turn line env w = (w', Ok false) -> PyStr.lower line = "exit".
Proof.
  unfold console_turn.
  destruct (bool_decide (PyStr.lower line = "exit")) eqn:Hexit;
    [by apply bool_decide_eq_true_1 in Hexit|].
  unfold bind at 1.
  match goal with
  | |- context [match ?first env w with _ => _ end] =>
      destruct (first env w) as [w1 [user_input|e]]; [|done]
  end.
  unfold bind at 1.
  match goal with
  | |- context [match ?second env w1 with _ => _ end] =>
      by destruct (second env w1) as [w2 [[]|e]]
  end.
Qed.

(** X14. The only way out of the console loop without an error is the
    exit command: when the loop returns normally, one of the lines it was
    given is the exit command; a session whose lines run out, or in which
    a turn fails, ends with an error. *)
Theorem session_ends_by_exit_only turns (w : World) :
  (console_loop turns w).2 = Ok tt ->
  exists env line, (env, line) ∈ turns /\ PyStr.lower line = "exit".
Proof.
  revert w. induction turns as [|[env line] rest IH]; intros w; [done|].
  cbn [console_loop].
  destruct (console_turn line env _) as [w' [[]|e]] eqn:Hturn; cbn [snd].
  - intros Hrest. destruct (IH w' Hrest) as (env' & line' & Hin & Hexit).
    exists env', line'. split; [apply elem_of_cons; by right|done].
  - intros _. exists env, line. split; [apply elem_of_cons; by left|].
    by apply console_turn_stops_on_exit_only in Hturn.
  - done.
Qed.

Lemma session_ends_by_exit_only_witness :
  exists env line,
    (env, line) ∈ [(canned_env, "hello"); (canned_env, "EXIT")]
    /\ PyStr.lower line = "exit".
Proof.
  apply (session_ends_by_exit_only
           [(canned_env, "hello"); (canned_env, "EXIT")] (fresh ∅)).
  vm_compute. reflexivity.
Defined.

Lemma console_turn_task env (task : string) (w : World) :
  console_turn ("task: " +:+ task) env w
  = match perform_task task env w with
    | (w', Ok task_output) =>
        (set_out (out w' ++ [Print task_output]) w', Ok true)
    | (w', Raise e) => (w', Raise e)
    end.
Proof.
  assert (PyStr.startswith "task: " ("task: " +:+ task) = true) as Htask
    by apply startswith_app.
  destruct (non_chat_not_command ("task: " +:+ task) (or_intror Htask))
    as [Hexit Hvoice].
  unfold console_turn. rewrite !bool_decide_eq_false_2 by done.
  rewrite bind_ret_l, Htask.
  change (PyStr.truthy ("task: " +:+ task)) with true.
  change (PyStr.drop 6 ("task: " +:+ task)) with task.
  unfold bind, emit, modify, ret.
  by destruct (perform_task task env w) as [w' [task_output|e]].
Qed.

(** X15. Nothing in the loop catches what an executor raises: when the
    task of a line fails with an error, the console session ends with
    that error, the state is the one the prompt left, and the remaining
    lines are never read. *)
Theorem task_error_ends_session env (task : string) rest (w : World) (e : exn) :
  let asked := set_out (out w ++ [Prompt (newline +:+ "You: ")]) w in
  (perform_task task env asked).2 = Raise e ->
  console_loop ((env, "task: " +:+ task) :: rest) w = (asked, Raise e).
Proof.
  cbn zeta. intros Hfail. cbn [console_loop]. rewrite console_turn_task.
  pose proof (perform_task_state env task
                (set_out (out w ++ [Prompt (newline +:+ "You: ")]) w)) as Hsame.
  destruct (perform_task task env _) as [w' [task_output|e']];
    cbn [fst snd] in *; [done|]. by injection Hfail as ->; subst w'.
Qed.

Lemma task_error_ends_session_witness :
  console_loop [(canned_env, "task: summarize notes"); (canned_env, "exit")]
    (fresh {["notes" := Opaque]})
  = (set_out [Prompt (newline +:+ "You: ")] (fresh {["notes" := Opaque]}),
     Raise FileError).
Proof.
  apply (task_error_ends_session canned_env "summarize notes"
           [(canned_env, "exit")] (fresh {["notes" := Opaque]}) FileError).
  vm_compute. reflexivity.
Defined.

(** The state a successful chat turn on [prompt] leaves, before any
    output. *)
Lemma generate_response_default env (prompt : string) (w : World)
    (l : list string) :
  context w = ctx l ->
  writable w ->
  generate_response prompt None env w
  = (set_fs (<[context_file w :=
                 Json (ctx (last_n 10 (exchange env None l prompt)))]> (fs w))
       (set_context (ctx (exchange env None l prompt)) w),
     Ok (reply env None l prompt)).
Proof. apply generate_response_ok. Qed.

(** X16. A chat line on the console is answered, shown and spoken: for a
    line that is not empty, is no command and carries no task marker, on a
    context of strings over a writable file, the turn adds the exchange to
    the context, saves its last ten entries, prints "AI: " and the answer,
    speaks the answer, and lets the loop go on. *)
Theorem console_chat_turn env (line : string) (w : World) (l : list string) :
  PyStr.lower line <> "exit" ->
  PyStr.lower line <> "voice" ->
  line <> "" ->
  PyStr.startswith "task: " line = false ->
  context w = ctx l ->
  writable w ->
  let answer := reply env None l line in
  let after := exchange env None l line in
  console_turn line env w
  = (set_out (out w ++ [Print ("AI: " +:+ answer); Say answer])
       (set_fs (<[context_file w := Json (ctx (last_n 10 after))]> (fs w))
          (set_context (ctx after) w)),
     Ok true).
Proof.
  intros Hexit Hvoice Hline Htask Hctx Hw. cbn zeta. unfold console_turn.
  rewrite !bool_decide_eq_false_2 by done. rewrite bind_ret_l, Htask.
  destruct line as [|c line]; [done|]. cbn [PyStr.truthy].
  run_with ltac:(run_with ltac:(by apply generate_response_default);
                 run; reflexivity).
  unfold ret, text_to_speech, emit, modify, set_out, set_fs, set_context.
  cbn [context_file context fs out]. by rewrite <- (assoc_L (++)).
Qed.

Lemma console_chat_turn_witness :
  out (console_turn "hello" canned_env (fresh ∅)).1 = [Print "AI: ok"; Say "ok"].
Proof.
  rewrite (console_chat_turn canned_env "hello" (fresh ∅) []).
  - reflexivity.
  - vm_compute. discriminate.
  - vm_compute. discriminate.
  - discriminate.
  - reflexivity.
  - reflexivity.
  - unfold writable. vm_compute. discriminate.
Defined.

Lemma speech_to_text_placeholder env (w : World) :
  listen env = UnknownValue \/ listen env = WaitTimeout ->
  speech_to_text env w
  = (set_out (out w ++ [Print "Listening..."]) w,
     Ok (match listen env with
         | UnknownValue => "Sorry, I didn't catch that."
         | _ => "No speech detected."
         end)).
Proof.
  intros [H|H]; unfold speech_to_text; run; by rewrite H.
Qed.

(** X17. A failed recognition is not told apart from speech: when the
    microphone hears nothing or nothing intelligible, the placeholder
    sentence is handed on as if the user had said it, so the console turn
    sends it to the model as a prompt and stores it in the context as a
    user turn. *)
Theorem voice_failure_becomes_prompt env (line : string) (w : World)
    (l : list string) :
  PyStr.lower line = "voice" ->
  listen env = UnknownValue \/ listen env = WaitTimeout ->
  context w = ctx l ->
  writable w ->
  let placeholder :=
    match listen env with
    | UnknownValue => "Sorry, I didn't catch that."
    | _ => "No speech detected."
    end in
  (console_turn line env w).2 = Ok true
  /\ context (console_turn line env w).1
     = ctx (l ++ ["You: " +:+ placeholder;
                  "AI: " +:+ reply env None l placeholder])
  /\ out (console_turn line env w).1
     = out w ++ [Print "Listening...";
                 Print ("You (via voice): " +:+ placeholder);
                 Print ("AI: " +:+ reply env None l placeholder);
                 Say (reply env None l placeholder)].
Proof.
  intros Hline Hheard Hctx Hw. cbn zeta. unfold console_turn. rewrite Hline.
  rewrite bool_decide_eq_false_2 by done.
  rewrite bool_decide_eq_true_2 by done.
  erewrite run_bind.
  2:{ run_with ltac:(by apply speech_to_text_placeholder). run. reflexivity. }
  assert (forall placeholder : string,
             placeholder = "Sorry, I didn't catch that."
             \/ placeholder = "No speech detected." ->
             PyStr.truthy placeholder = true
             /\ PyStr.startswith "task: " placeholder = false) as Hchat
    by (by intros ? [->| ->]).
  destruct (Hchat (match listen env with
                   | UnknownValue => "Sorry, I didn't catch that."
                   | _ => "No speech detected."
                   end)) as [-> ->];
    [by destruct Hheard as [-> | ->]; [left|right]|].
  run_with ltac:(run_with ltac:(by apply (generate_response_default _ _ _ l));
                 run; reflexivity).
  unfold ret, exchange. cbn [fst snd set_out set_fs set_context context out].
  repeat split. by rewrite <- !(assoc_L (++)).
Qed.

Lemma voice_failure_becomes_prompt_witness :
  context (console_turn "voice" canned_env (fresh ∅)).1
  = ctx ["You: No speech detected."; "AI: ok"].
Proof.
  destruct (voice_failure_becomes_prompt canned_env "voice" (fresh ∅) [])
    as (_ & H & _).
  - reflexivity.
  - right. reflexivity.
  - reflexivity.
  - unfold writable. vm_compute. discriminate.
  - rewrite H. reflexivity.
Defined.

(** X18. A run of the web page in which the button is not pressed acts on
    nothing: whatever is typed, chat text included, and whatever the
    boxes, the context and the files are as they were; without voice input
    the run changes nothing at all and returns normally. *)
Theorem web_page_without_submit env (use_voice enable_tts : bool)
    (typed : string) (w : World) :
  (context (web_interface use_voice enable_tts typed false env w).1 = context w
   /\ context_file (web_interface use_voice enable_tts typed false env w).1
      = context_file w
   /\ fs (web_interface use_voice enable_tts typed false env w).1 = fs w)
  /\ web_interface false enable_tts typed false env w = (w, Ok tt).
Proof.
  split; [|done].
  assert (frame (web_interface use_voice enable_tts typed false)) as Hframe.
  { unfold web_interface. apply frame_bind; [|auto with frame].
    destruct use_voice; [|auto with frame].
    apply frame_bind; [auto with frame|]. intros _.
    apply frame_bind; [apply frame_speech_to_text|auto with frame]. }
  apply Hframe.
Qed.

(** ** Memory and file in step *)

Lemma bind_ok_inv {A B} (m : M A) (k : A -> M B) env w w' b :
  bind m k env w = (w', Ok b) ->
  exists w1 a, m env w = (w1, Ok a) /\ k a env w1 = (w', Ok b).
Proof.
  unfold bind. destruct (m env w) as [w1 [a|e]]; [|done].
  intros H. by exists w1, a.
Qed.

Lemma synced_same (w w' : World) :
  context w' = context w -> context_file w' = context_file w ->
  fs w' = fs w -> synced w -> synced w'.
Proof. unfold synced. by intros -> -> ->. Qed.

Lemma frame_keeps_synced {A} (m : M A) : frame m -> keeps_synced m.
Proof.
  intros Hm env w w' a Hw Hrun. destruct (Hm env w) as (Hc & Hp & Hf).
  rewrite Hrun in Hc, Hp, Hf. by apply (synced_same w).
Qed.

Lemma keeps_synced_bind {A B} (m : M A) (k : A -> M B) :
  keeps_synced m -> (forall a, keeps_synced (k a)) -> keeps_synced (bind m k).
Proof.
  intros Hm Hk env w w' b Hw Hrun.
  apply bind_ok_inv in Hrun as (w1 & a & Hfirst & Hrest).
  apply (Hk a env w1 w' b); [|done]. by apply (Hm env w w1 a).
Qed.

Lemma keeps_synced_if {A} (b : bool) (m1 m2 : M A) :
  keeps_synced m1 -> keeps_synced m2 -> keeps_synced (if b then m1 else m2).
Proof. by destruct b. Qed.

Lemma context_append_ok_inv (item : json) env (w w' : World) :
  context_append item env w = (w', Ok tt) ->
  exists items, context w' = JArr items.
Proof.
  unfold context_append, bind, gets, modify, raise.
  destruct (context w) as [| | | |items|]; try done.
  intros [= <-]. by eexists.
Qed.

Lemma save_context_ok_synced env (w w' : World) (items : list json) :
  context w = JArr items ->
  save_context env w = (w', Ok tt) ->
  synced w'.
Proof.
  intros Hctx. rewrite save_context_run, Hctx. cbn [slice_last10].
  intros Hsave.
  assert (w' = set_fs (<[context_file w := Json (JArr (last_n 10 items))]> (fs w)) w)
    as -> by (destruct (fs w !! context_file w) as [[]|]; congruence).
  exists items. cbn [set_fs context context_file fs].
  by rewrite lookup_insert_eq.
Qed.

(** A chat turn that returns has just saved: the file is in step with the
    memory, whatever they were before. *)
Lemma generate_response_ok_synced env (prompt : string) (limit : option Z)
    (w w' : World) (response : string) :
  generate_response prompt limit env w = (w', Ok response) -> synced w'.
Proof.
  unfold generate_response. intros H.
  apply bind_ok_inv in H as (w1 & [] & _ & H).
  apply bind_ok_inv in H as (w2 & current & _ & H).
  apply bind_ok_inv in H as (w3 & recent & _ & H).
  apply bind_ok_inv in H as (w4 & full_context & _ & H).
  apply bind_ok_inv in H as (w5 & env' & _ & H).
  apply bind_ok_inv in H as (w6 & [] & Happend & H).
  apply bind_ok_inv in H as (w7 & [] & Hsave & H).
  injection H as <- _.
  apply context_append_ok_inv in Happend as [items Hitems].
  by apply (save_context_ok_synced env w6 w7 items).
Qed.

Lemma keeps_synced_generate_response (prompt : string) (limit : option Z) :
  keeps_synced (generate_response prompt limit).
Proof. intros env w w' a _. apply generate_response_ok_synced. Qed.

#[local] Hint Resolve keeps_synced_if keeps_synced_generate_response : frame.
#[local] Hint Extern 2 (keeps_synced (bind _ _)) =>
  apply keeps_synced_bind; [|intros ?] : frame.
#[local] Hint Extern 5 (keeps_synced _) =>
  apply frame_keeps_synced : frame.

Lemma keeps_synced_console_turn (line : string) : keeps_synced (console_turn line).
Proof. unfold console_turn. auto 20 with frame. Qed.

(** X19. Memory and file stay in step through a session: when the file
    holds the last ten entries of the context at the start of a console
    session that ends normally, it holds the last ten entries of the
    context at its end, whatever chat turns, tasks, empty lines and voice
    inputs came in between; and any chat turn that returns leaves them in
    step, whatever they were before. *)
Theorem session_keeps_file_in_step turns (w w' : World) :
  (synced w -> console_loop turns w = (w', Ok tt) -> synced w')
  /\ (forall env prompt limit response,
         generate_response prompt limit env w = (w', Ok response) -> synced w').
Proof.
  split; [|intros env prompt limit response; apply generate_response_ok_synced].
  revert w. induction turns as [|[env line] rest IH]; intros w Hw; [done|].
  cbn [console_loop].
  match goal with
  | |- context [console_turn line env ?asked] =>
      assert (synced asked) as Hasked by (by apply (synced_same w));
      pose proof (keeps_synced_console_turn line env asked) as Hturn;
      destruct (console_turn line env asked) as [w1 [[]|e]]; [| |done]
  end.
  - apply IH. by apply (Hturn w1 true).
  - intros [= <-]. by apply (Hturn w1 false).
Qed.

Lemma session_keeps_file_in_step_witness :
  synced (console_loop [(canned_env, "hello"); (canned_env, "task: draft email x");
                        (canned_env, "exit")]
            (fresh {["context.json" := Json (JArr [])]})).1.
Proof.
  destruct (session_keeps_file_in_step
              [(canned_env, "hello"); (canned_env, "task: draft email x");
               (canned_env, "exit")]
              (fresh {["context.json" := Json (JArr [])]})
              (console_loop [(canned_env, "hello");
                             (canned_env, "task: draft email x");
                             (canned_env, "exit")]
                 (fresh {["context.json" := Json (JArr [])]})).1) as [H _].
  apply H.
  - exists []. split; [reflexivity|]. vm_compute. reflexivity.
  - vm_compute. reflexivity.
Defined.

(** ** Starting up *)

(** [__init__] in full. *)
Lemma init_run env (path : string) (w : World) :
  let started :=
    set_context_file path
      (set_out ((out w ++ [Print "Loading model and tokenizer..."])
                  ++ [Print "Model loaded successfully!"]) w) in
  init path env w
  = match fs w !! path with
    | None => (set_context (JArr []) started, Ok tt)
    | Some (Json v) => (set_context v started, Ok tt)
    | Some (Text _) => (started, Raise DecodeError)
    | Some Opaque => (started, Raise FileError)
    end.
Proof.
  cbn zeta. unfold init. run. run. run.
  unfold bind. rewrite load_context_run.
  cbn [set_context_file set_out context_file fs].
  by destruct (fs w !! path) as [[]|].
Qed.

(** X20. A context file that is there but is not JSON, or cannot be
    opened, stops the program while the agent is built: [main] fails with
    that error before the mode is asked, whatever mode and lines were to
    come; only the two loading messages have been printed and no file has
    changed. *)
Theorem main_stops_on_bad_context_file boot (mode_answer : string) turns page
    (use_voice enable_tts : bool) (typed : string) (submit : bool) (w : World) :
  (forall v, fs w !! "context.json" <> Some (Json v)) ->
  fs w !! "context.json" <> None ->
  let run := main boot mode_answer turns page use_voice enable_tts typed submit w in
  (exists e, run.2 = Raise e)
  /\ out run.1 = out w ++ [Print "Loading model and tokenizer...";
                           Print "Model loaded successfully!"]
  /\ fs run.1 = fs w.
Proof.
  intros Hjson Hsome. cbn zeta.
  pose proof (init_run boot "context.json" w) as Hinit. cbn zeta in Hinit.
  unfold main.
  destruct (fs w !! "context.json") as [[| |v]|];
    [| |by destruct (Hjson v)|done].
  all: erewrite run_bind_raise by exact Hinit.
  all: cbn [fst snd set_context_file set_out out fs].
  all: (split; [by eexists|]); by rewrite <- (assoc_L (++)).
Qed.

Lemma main_stops_on_bad_context_file_witness :
  (main canned_env "console" [(canned_env, "exit")] canned_env false false ""
     false (fresh {["context.json" := Text "{not json"]})).2
  = Raise DecodeError.
Proof.
  destruct (main_stops_on_bad_context_file canned_env "console"
              [(canned_env, "exit")] canned_env false false "" false
              (fresh {["context.json" := Text "{not json"]})) as [[e He] _].
  - intros v H. vm_compute in H. discriminate.
  - intros H. vm_compute in H. discriminate.
  - vm_compute. reflexivity.
Defined.

(** X21. Starting the program and leaving it writes nothing: when no
    context file exists, choosing the console (the answer may carry
    spaces and capitals) and typing the exit command at once, or giving a
    mode that is neither console nor web, ends [main] normally with the
    empty context and the file system as it was; no context file is
    created. *)
Theorem main_without_chat_writes_nothing boot (mode_answer : string) env
    (line : string) rest page (use_voice enable_tts : bool) (typed : string)
    (submit : bool) (w : World) :
  fs w !! "context.json" = None ->
  (PyStr.lower (PyStr.strip mode_answer) = "console" /\ PyStr.lower line = "exit")
  \/ (PyStr.lower (PyStr.strip mode_answer) <> "console"
      /\ PyStr.lower (PyStr.strip mode_answer) <> "web") ->
  let run :=
    main boot mode_answer ((env, line) :: rest) page use_voice enable_tts typed
      submit w in
  run.2 = Ok tt /\ context run.1 = JArr [] /\ fs run.1 = fs w.
Proof.
  intros Hfile Hmode. cbn zeta.
  pose proof (init_run boot "context.json" w) as Hinit. cbn zeta in Hinit.
  rewrite Hfile in Hinit. unfold main.
  erewrite run_bind by exact Hinit. unfold emit at 1, modify at 1.
  destruct Hmode as [[Hconsole Hexit]|[Hconsole Hweb]].
  - rewrite Hconsole. rewrite bool_decide_eq_true_2 by done.
    unfold bind, emit, modify. by rewrite (console_loop_exit _ _ _ _ Hexit).
  - by rewrite !bool_decide_eq_false_2 by done.
Qed.

Lemma main_without_chat_writes_nothing_witness :
  fs (main canned_env " Console " [(canned_env, "EXIT")] canned_env false false
        "" false (fresh ∅)).1
  = ∅.
Proof.
  destruct (main_without_chat_writes_nothing canned_env " Console " canned_env
              "EXIT" [] canned_env false false "" false (fresh ∅))
    as (_ & _ & H).
  - vm_compute. reflexivity.
  - left. split; vm_compute; reflexivity.
  - exact H.
Defined.

(** ** The weather executor on a 200 answer *)

(** X22. On a 200 answer whose body has the expected shape (an object
    whose "weather" is a list starting with an object that has a
    "description", and whose "main" is an object with a "temp", other
    fields allowed), [get_weather] returns the report built from the
    location as typed, the description and the temperature, and changes
    nothing. *)
Theorem get_weather_report env (location : string) (w : World)
    (fields first_fields main_fields : list (string * json))
    (others : list json) (description temp : json) :
  requests_get env (weather_url location)
  = Ok {| status_code := 200; body := Some (JObj fields) |} ->
  assoc "weather" fields = Some (JArr (JObj first_fields :: others)) ->
  assoc "description" first_fields = Some description ->
  assoc "main" fields = Some (JObj main_fields) ->
  assoc "temp" main_fields = Some temp ->
  get_weather location env w
  = (w, Ok ("Weather in " +:+ location +:+ ": " +:+ format env description
            +:+ ", " +:+ format env temp +:+ degrees)).
Proof.
  intros Hget Hweather Hdescription Hmain Htemp. unfold get_weather. run.
  run_with ltac:(unfold lift; by rewrite Hget).
  cbn [status_code body bool_decide decide_rel]. rewrite bool_decide_eq_true_2 by done.
  run.
  run_with ltac:(unfold lift, getitem_key; by rewrite Hweather).
  run.
  run_with ltac:(unfold lift, getitem_key; by rewrite Hdescription).
  run_with ltac:(unfold lift, getitem_key; by rewrite Hmain).
  run_with ltac:(unfold lift, getitem_key; by rewrite Htemp).
  reflexivity.
Qed.

Lemma get_weather_report_witness :
  get_weather "Oslo"
    (weather_env (Some (weather_body (JStr "light rain") (JNum "7.5"))))
    (fresh ∅)
  = (fresh ∅, Ok ("Weather in Oslo: light rain, 7.5" +:+ degrees)).
Proof.
  apply (get_weather_report
           (weather_env (Some (weather_body (JStr "light rain") (JNum "7.5"))))
           "Oslo" (fresh ∅)
           [("weather", JArr [JObj [("description", JStr "light rain")]]);
            ("main", JObj [("temp", JNum "7.5")])]
           [("description", JStr "light rain")] [("temp", JNum "7.5")] []
           (JStr "light rain") (JNum "7.5")); reflexivity.
Defined.

(** X23. A 200 answer of another shape is not turned into a message: when
    the body is not JSON, is not an object, has no "weather" key, or has
    an empty "weather" list, [get_weather] raises instead of returning the
    failure message; the state is unchanged. *)
Theorem get_weather_malformed env (location : string) (w : World)
    (answer : option json) :
  requests_get env (weather_url location)
  = Ok {| status_code := 200; body := answer |} ->
  (answer = None -> get_weather location env w = (w, Raise DecodeError))
  /\ (forall data,
         answer = Some data ->
         (forall fields, data <> JObj fields) ->
         get_weather location env w = (w, Raise DynamicError))
  /\ (forall fields,
         answer = Some (JObj fields) ->
         assoc "weather" fields = None
         \/ assoc "weather" fields = Some (JArr []) ->
         get_weather location env w = (w, Raise DynamicError)).
Proof.
  intros Hget.
  assert (forall data,
             answer = Some data ->
             get_weather location env w
             = bind (lift (getitem_key "weather" data))
                 (fun weather =>
                    first <- lift (getitem_0 weather) ;
                    description <- lift (getitem_key "description" first) ;
                    main_part <- lift (getitem_key "main" data) ;
                    temp <- lift (getitem_key "temp" main_part) ;
                    ret ("Weather in " +:+ location +:+ ": "
                         +:+ format env description
                         +:+ ", " +:+ format env temp +:+ degrees)) env w)
    as Hbody.
  { intros data ->. unfold get_weather. run.
    run_with ltac:(unfold lift; by rewrite Hget).
    cbn [status_code body]. rewrite bool_decide_eq_true_2 by done.
    by run. }
  split; [|split].
  - intros ->. unfold get_weather. run.
    run_with ltac:(unfold lift; by rewrite Hget).
    cbn [status_code body]. by rewrite bool_decide_eq_true_2 by done.
  - intros data Hanswer Hshape. rewrite (Hbody data Hanswer).
    erewrite run_bind_raise; [reflexivity|].
    unfold lift, getitem_key. destruct data; try done. by destruct (Hshape fields).
  - intros fields Hanswer [Hweather|Hweather]; rewrite (Hbody _ Hanswer).
    + erewrite run_bind_raise; [reflexivity|].
      unfold lift, getitem_key. by rewrite Hweather.
    + run_with ltac:(unfold lift, getitem_key; by rewrite Hweather).
      by erewrite run_bind_raise.
Qed.

Lemma get_weather_malformed_witness :
  get_weather "Oslo" (weather_env (Some (JObj [("cod", JNum "200")]))) (fresh ∅)
  = (fresh ∅, Raise DynamicError).
Proof.
  destruct (get_weather_malformed
              (weather_env (Some (JObj [("cod", JNum "200")]))) "Oslo" (fresh ∅)
              (Some (JObj [("cod", JNum "200")]))) as (_ & _ & H).
  - reflexivity.
  - apply (H [("cod", JNum "200")]); [reflexivity|]. left. reflexivity.
Defined.

(** ** The prefixes of the router *)

(** X24. No input carries two task prefixes: an input that starts with
    one of "summarize ", "draft email " and "get weather " starts with
    neither of the other two, so the order in which [perform_task] tests
    them never decides the route.  And the task marker of the front ends
    is not itself a task: a line made of the marker twice is not
    recognized. *)
Theorem task_prefixes_exclusive (task : string) :
  (PyStr.startswith "summarize " task = true ->
   PyStr.startswith "draft email " task = false
   /\ PyStr.startswith "get weather " task = false)
  /\ (PyStr.startswith "draft email " task = true ->
      PyStr.startswith "summarize " task = false
      /\ PyStr.startswith "get weather " task = false)
  /\ (PyStr.startswith "get weather " task = true ->
      PyStr.startswith "summarize " task = false
      /\ PyStr.startswith "draft email " task = false)
  /\ (PyStr.startswith "task: " task = true ->
      perform_task task = ret not_recognized).
Proof.
  split; [|split; [|split]]; intros [rest ->]%startswith_iff;
    [split; reflexivity..|].
  apply perform_task_unrecognized; reflexivity.
Qed.

Lemma task_prefixes_exclusive_witness :
  PyStr.startswith "draft email " "summarize draft email to Bob" = false.
Proof.
  destruct (task_prefixes_exclusive "summarize draft email to Bob") as [H _].
  apply H. reflexivity.
Defined.

(** ** A task on the web page *)

(** X25. On the web page a task is shown and, unlike on the console,
    spoken when the speech box is ticked: a submitted line that carries
    the task marker runs the task on the rest of the line, shows its
    output, speaks it exactly when speech is enabled, and changes nothing
    else. *)
Theorem web_task_run env (task : string) (enable_tts : bool) (w : World)
    (task_output : string) :
  (perform_task task env w).2 = Ok task_output ->
  web_interface false enable_tts ("task: " +:+ task) true env w
  = (set_out (out w ++ Show task_output
                       :: (if enable_tts then [Say task_output] else []))
       w,
     Ok tt).
Proof.
  intros Hrun. pose proof (perform_task_state env task w) as Hsame.
  unfold web_interface. rewrite bind_ret_l.
  change (PyStr.truthy ("task: " +:+ task)) with true.
  rewrite (startswith_app "task: ").
  change (PyStr.drop 6 ("task: " +:+ task)) with task.
  destruct (perform_task task env w) as [w' [result|e]] eqn:Htask;
    cbn [fst snd] in *; [|done].
  injection Hrun as ->. subst w'.
  run_with ltac:(exact Htask). run.
  destruct enable_tts; unfold text_to_speech, emit, modify, ret, set_out;
    cbn [context_file context fs out];
    [by rewrite <- (assoc_L (++))|done].
Qed.

Lemma web_task_run_witness :
  web_interface false true "task: draft email hi" true canned_env (fresh ∅)
  = (set_out [Show "Drafting an email based on your input: hi";
              Say "Drafting an email based on your input: hi"] (fresh ∅),
     Ok tt).
Proof.
  apply (web_task_run canned_env "draft email hi" true (fresh ∅)).
  reflexivity.
Defined.
